(** * DeepDocAI: document extraction and summarisation pipeline

    A shallow embedding of [main.py] (the [/summarize] handler and
    [generate_summary]) and of [Local_LM/document_parser.py] (the
    [DocumentParser] class), with the properties of the specification
    stated and proved over it.

    Python values are modelled as follows.
    - [str] is a list of Unicode code points, so that [len], slicing and
      [strip] count characters the way Python does.
    - [int] is [Z]; [Optional[int]] is [option Z].
    - Exceptions are the inductive type [exn]; a computation that may raise
      and that touches the upload directory runs in the monad [M].
    - The upload directory is a finite map from paths to documents, a path
      being the string [pathlib] renders for it.
    - [await] is sequencing: one request is followed from its start to its
      end.  Calls to the logger are left out. *)

From Stdlib Require Import ZArith NArith List String Ascii Bool Lia DecimalString.
From stdpp Require Import base gmap list.
Import ListNotations.

Open Scope Z_scope.

(** ** Python strings *)

Module PyStr.

Definition char := N.
Definition str := list char.

(** A string literal of the source, as code points. *)
Definition lit (s : string) : str := List.map N_of_ascii (list_ascii_of_string s).

Definition nl : str := [10%N].

(** [len(s)] *)
Definition len (s : str) : Z := Z.of_nat (length s).

(** [bool(s)]: a string is truthy when it is not empty. *)
Definition truthy (s : str) : bool :=
  match s with
  | [] => false
  | _ :: _ => true
  end.

(** [s[:n]] *)
Definition slice_to (s : str) (n : Z) : str :=
  if n <? 0 then take (length s - Z.to_nat (- n)) s else take (Z.to_nat n) s.

(** [s[i:]] for [0 <= i] *)
Definition slice_from (s : str) (i : Z) : str := drop (Z.to_nat i) s.

(** [str.isspace] on one character: the code points CPython lists in
    [_PyUnicode_IsWhitespace]. *)
Definition isspace (c : char) : bool :=
  ((9 <=? c) && (c <=? 13) || (28 <=? c) && (c <=? 32)
   || (c =? 133) || (c =? 160) || (c =? 5760)
   || (8192 <=? c) && (c <=? 8202)
   || (c =? 8232) || (c =? 8233) || (c =? 8239) || (c =? 8287)
   || (c =? 12288))%N.

Fixpoint lstrip (s : str) : str :=
  match s with
  | [] => []
  | c :: s' => if isspace c then lstrip s' else s
  end.

Definition rstrip (s : str) : str := rev (lstrip (rev s)).

(** [s.strip()] *)
Definition strip (s : str) : str := rstrip (lstrip s).

(** Lower-casing of one character.  The ASCII letters are mapped as Python
    maps them.  Code points outside ASCII are left as they are, where
    Python maps the upper-case letters of every script: this changes the
    text of a message that quotes a lower-cased extension and nothing
    else, since no character outside ASCII lower-cases to a letter of
    [.pdf], [.docx] or [.doc]. *)
Definition lower_char (c : char) : char :=
  if ((65 <=? c) && (c <=? 90))%N then (c + 32)%N else c.

(** [s.lower()] *)
Definition lower (s : str) : str := List.map lower_char s.

(** [s == t] *)
Fixpoint eqb (s t : str) : bool :=
  match s, t with
  | [], [] => true
  | c :: s', d :: t' => (c =? d)%N && eqb s' t'
  | _, _ => false
  end.

(** [x in l] for a list of strings *)
Definition mem (x : str) (l : list str) : bool := existsb (eqb x) l.

(** [sep.join(parts)] *)
Fixpoint join (sep : str) (parts : list str) : str :=
  match parts with
  | [] => []
  | [p] => p
  | p :: rest => p ++ sep ++ join sep rest
  end.

(** [s.startswith(p)] *)
Fixpoint startswith (s p : str) {struct p} : bool :=
  match p, s with
  | [], _ => true
  | d :: p', c :: s' => (c =? d)%N && startswith s' p'
  | _ :: _, [] => false
  end.

(** [needle in s] for strings *)
Fixpoint contains (s needle : str) : bool :=
  startswith s needle ||
  match s with
  | [] => false
  | _ :: s' => contains s' needle
  end.

(** [str(n)] and the rendering of an [int] inside an f-string. *)
Definition str_of_int (n : Z) : str := lit (NilZero.string_of_int (Z.to_int n)).

(** [s.rfind(c)] for a one-character [c]: the highest index of [c], or -1. *)
Fixpoint rfind_from (i : Z) (c : char) (s : str) : Z :=
  match s with
  | [] => -1
  | d :: s' =>
      let r := rfind_from (i + 1) c s' in
      if 0 <=? r then r else if (d =? c)%N then i else -1
  end.

Definition rfind (s : str) (c : char) : Z := rfind_from 0 c s.

(** [s.split(sep)] for a one-character [sep] *)
Fixpoint split (sep : char) (s : str) : list str :=
  match s with
  | [] => [[]]
  | c :: s' =>
      match split sep s' with
      | [] => [[]]
      | w :: ws => if (c =? sep)%N then [] :: w :: ws else (c :: w) :: ws
      end
  end.

End PyStr.

Import PyStr.

(** ** [pathlib] *)

Module Pathlib.

Definition slash : char := 47%N.
Definition dot : char := 46%N.

(** The components of a POSIX path: the pieces between slashes, without the
    empty ones and the [.] ones. *)
Definition parts (p : str) : list str :=
  List.filter (fun x => truthy x && negb (PyStr.eqb x [dot])) (split slash p).

(** [Path(p).name] *)
Definition name (p : str) : str := List.last (parts p) [].

(** [Path(p).suffix]: the final component from its last dot on, when that
    dot is neither its first nor its last character. *)
Definition suffix (p : str) : str :=
  let name := name p in
  let i := rfind name dot in
  if (0 <? i) && (i <? len name - 1) then slice_from name i else [].

(** [posixpath.join(base, p)]: an absolute [p] replaces [base]; otherwise
    [p] is appended, after a slash unless [base] is empty or ends in one. *)
Definition os_path_join (base p : str) : str :=
  if startswith p [slash] then p
  else if negb (truthy base) || startswith (rev base) [slash] then base ++ p
  else base ++ [slash] ++ p.

(** The root of a POSIX path: [/], or [//] for exactly two leading
    slashes, or nothing for a relative path. *)
Definition root (p : str) : str :=
  if startswith p [slash; slash] && negb (startswith p [slash; slash; slash])
  then [slash; slash]
  else if startswith p [slash] then [slash]
  else [].

(** [str(PurePosixPath(p))]: the root and the components joined by single
    slashes (so without empty and [.] components and without a trailing
    slash), or [.] when there is neither root nor component.  A [..]
    component is kept. *)
Definition render (p : str) : str :=
  match root p, parts p with
  | [], [] => [dot]
  | r, ps => r ++ join [slash] ps
  end.

(** [str(base / p)] *)
Definition joinpath (base p : str) : str := render (os_path_join base p).

End Pathlib.

(** ** Exceptions and outcomes *)

(** The exception classes the two modules raise or catch.  All of them are
    subclasses of [Exception]; [except ImportError] selects the first. *)
Inductive exn : Type :=
| ImportError (msg : str)
| ValueError (msg : str)
| AttributeError (msg : str)
| OSError (msg : str)
| Exception (msg : str)
| HTTPException (status_code : Z) (detail : str)
| RequestError (msg : str)
| LibraryError (msg : str).

(** [str(e)] *)
Definition exn_str (e : exn) : str :=
  match e with
  | ImportError msg | ValueError msg | AttributeError msg | OSError msg
  | Exception msg | RequestError msg | LibraryError msg => msg
  | HTTPException status_code detail => str_of_int status_code ++ lit ": " ++ detail
  end.

Definition is_ImportError (e : exn) : bool :=
  match e with
  | ImportError _ => true
  | _ => false
  end.

Inductive outcome (A : Type) : Type :=
| Returns (a : A)
| Raises (e : exn).

Arguments Returns {A} a.
Arguments Raises {A} e.

(** ** Documents, as the decoding libraries see them *)

(** What [page.extract_text()] does on one page of a PDF. *)
Inductive page : Type :=
| PageText (text : str)
| PageRaises (e : exn).

(** The content of an uploaded file, described by what each decoding
    library makes of it:
    - [pdf_pages]: [PyPDF2.PdfReader(file).pages], or the exception raised
      while the container is decoded;
    - [docx_paragraphs]: [para.text] for each [para] of
      [Document(file_path).paragraphs], or the exception raised by
      [Document];
    - [doc_text]: [textract.process(path).decode('utf-8', errors='ignore')],
      or the exception raised by [textract.process]. *)
Record document : Type := {
  pdf_pages : outcome (list page);
  docx_paragraphs : outcome (list str);
  doc_text : outcome str
}.

(** ** The generation service *)

Module Httpx.

Inductive jvalue : Type :=
| JString (s : str)
| JOther.

(** What [response.json()] yields: a decoding error, a value that is not an
    object, or an object with its ["response"] member (if any). *)
Inductive json : Type :=
| JInvalid
| JNotObject
| JObject (response : option jvalue).

Record Response : Type := {
  status_code : Z;
  text : str;
  body : json
}.

(** What [client.post] does: raise an [httpx.RequestError] (connection
    error, timeout) with the given message, or return a response. *)
Inductive post_outcome : Type :=
| PostRaises (msg : str)
| PostReturns (r : Response).

End Httpx.

(** ** The process environment *)

Inductive save_outcome : Type :=
| SaveOk
| OpenRaises (e : exn)
| WriteRaises (e : exn).

Record environment : Type := {
  OLLAMA_MODEL : str;
  has_PyPDF2 : bool;
  has_docx : bool;
  has_textract : bool;
  saving : str -> save_outcome;
  ollama : str -> str -> Httpx.post_outcome
}.

Definition UPLOAD_DIR : str := lit "uploads".

(** ** State: the upload directory and the calls made to collaborators *)

Inductive call : Type :=
| OpenedForWrite (path : str)
| ParseDocument (path : str) (file_ext : str)
| PostGenerate (model : str) (prompt : str)
| Unlinked (path : str).

Record world : Type := {
  fs : gmap str document;
  trace : list call
}.

Definition M (A : Type) : Type := world -> outcome A * world.

Definition ret {A} (a : A) : M A := fun w => (Returns a, w).

Definition raise {A} (e : exn) : M A := fun w => (Raises e, w).

Definition bind {A B} (m : M A) (k : A -> M B) : M B :=
  fun w =>
    match m w with
    | (Returns a, w') => k a w'
    | (Raises e, w') => (Raises e, w')
    end.

(** [try: m except Exception as e: h e] *)
Definition try_except {A} (m : M A) (h : exn -> M A) : M A :=
  fun w =>
    match m w with
    | (Returns a, w') => (Returns a, w')
    | (Raises e, w') => h e w'
    end.

(** [try: m finally: f] *)
Definition try_finally {A} (m : M A) (f : M unit) : M A :=
  fun w =>
    match m w with
    | (r, w') =>
        match f w' with
        | (Returns _, w'') => (r, w'')
        | (Raises e, w'') => (Raises e, w'')
        end
    end.

Definition lift {A} (o : outcome A) : M A := fun w => (o, w).

Definition record (c : call) : M unit :=
  fun w => (Returns tt, {| fs := fs w; trace := trace w ++ [c] |}).

Declare Scope py_scope.
Delimit Scope py_scope with py.
Notation "x <- c1 ;; c2" := (bind c1 (fun x => c2))
  (at level 100, c1 at next level, right associativity) : py_scope.
Notation "c1 ;;; c2" := (bind c1 (fun _ => c2))
  (at level 100, right associativity) : py_scope.
Open Scope py_scope.

(** *** File system operations *)

(** [open(path, 'rb')] followed by a decoding library reading the file. *)
Definition read_file (path : str) : M document :=
  fun w =>
    match fs w !! path with
    | Some d => (Returns d, w)
    | None => (Raises (OSError (lit "No such file or directory")), w)
    end.

(** [async with aiofiles.open(file_path, 'wb') as f: await f.write(content)].
    Opening creates the file; a failed write leaves it behind. *)
Definition save_upload (env : environment) (path : str) (content : document) : M unit :=
  match saving env path with
  | OpenRaises e => raise e
  | WriteRaises e =>
      fun w =>
        (Raises e,
         {| fs := <[path := content]> (fs w); trace := trace w ++ [OpenedForWrite path] |})
  | SaveOk =>
      fun w =>
        (Returns tt,
         {| fs := <[path := content]> (fs w); trace := trace w ++ [OpenedForWrite path] |})
  end.

(** [file_path.exists()] *)
Definition path_exists (path : str) : M bool :=
  fun w => (Returns (bool_decide (is_Some (fs w !! path))), w).

(** [file_path.unlink()] *)
Definition unlink (path : str) : M unit :=
  fun w => (Returns tt, {| fs := delete path (fs w); trace := trace w ++ [Unlinked path] |}).

(** ** [Local_LM/document_parser.py]: class [DocumentParser] *)

(** [import PyPDF2] and the like: raises when the package is missing. *)
Definition import (available : bool) (package : str) : M unit :=
  if available then ret tt
  else raise (ImportError (lit "No module named '" ++ package ++ lit "'")).

(** One iteration of the loop over [pdf_reader.pages]: the page's text is
    appended when it is truthy; an exception of [extract_text] is logged
    and the loop goes on. *)
Definition extract_page (text_parts : list str) (p : page) : list str :=
  match p with
  | PageText text => if truthy text then text_parts ++ [text] else text_parts
  | PageRaises e => text_parts
  end.

Definition _extract_pdf_text (env : environment) (file_path : str) : M str :=
  import (has_PyPDF2 env) (lit "PyPDF2") ;;;
  file <- read_file file_path ;;
  pages <- lift (pdf_pages file) ;;
  let text_parts := fold_left extract_page pages [] in
  ret (join (nl ++ nl) text_parts).

Definition _parse_pdf (env : environment) (file_path : str) : M str :=
  try_except
    (import (has_PyPDF2 env) (lit "PyPDF2") ;;;
     text <- _extract_pdf_text env file_path ;;
     ret text)
    (fun e =>
       if is_ImportError e then
         raise (ImportError
                  (lit "PyPDF2 is required for PDF parsing. Install it with: pip install PyPDF2"))
       else raise (Exception (lit "Failed to parse PDF: " ++ exn_str e))).

Definition _extract_docx_text (env : environment) (file_path : str) : M str :=
  import (has_docx env) (lit "docx") ;;;
  file <- read_file file_path ;;
  doc <- lift (docx_paragraphs file) ;;
  let paragraphs := List.filter (fun para_text => truthy (strip para_text)) doc in
  ret (join (nl ++ nl) paragraphs).

Definition _parse_docx (env : environment) (file_path : str) : M str :=
  try_except
    (import (has_docx env) (lit "docx") ;;;
     text <- _extract_docx_text env file_path ;;
     ret text)
    (fun e =>
       if is_ImportError e then
         raise (ImportError
                  (lit "python-docx is required for DOCX parsing. Install it with: pip install python-docx"))
       else raise (Exception (lit "Failed to parse DOCX: " ++ exn_str e))).

Definition _parse_doc (env : environment) (file_path : str) : M str :=
  try_except
    (import (has_textract env) (lit "textract") ;;;
     file <- read_file file_path ;;
     text <- lift (doc_text file) ;;
     ret text)
    (fun e =>
       if is_ImportError e then
         raise (ImportError
                  (lit "textract is required for DOC parsing. Install it with: pip install textract"))
       else raise (Exception (lit "Failed to parse DOC: " ++ exn_str e))).

Definition parse_document (env : environment) (file_path : str) (file_ext : str) : M str :=
  record (ParseDocument file_path file_ext) ;;;
  let file_ext := lower file_ext in
  if PyStr.eqb file_ext (lit ".pdf") then _parse_pdf env file_path
  else if PyStr.eqb file_ext (lit ".docx") then _parse_docx env file_path
  else if PyStr.eqb file_ext (lit ".doc") then _parse_doc env file_path
  else raise (ValueError (lit "Unsupported file type: " ++ file_ext)).

(** ** [main.py]: [generate_summary] *)

Definition max_chars : Z := 8000.

Definition truncation_marker : str := lit "... [truncated]".

(** The local [text] after the truncation step. *)
Definition truncated_text (text : str) : str :=
  if len text >? max_chars then slice_to text max_chars ++ truncation_marker else text.

(** [bool(max_length)] for an [Optional[int]] *)
Definition truthy_int (max_length : option Z) : bool :=
  match max_length with
  | None => false
  | Some n => negb (n =? 0)
  end.

(** The local [length_instruction]. *)
Definition length_instruction (max_length : option Z) : str :=
  match max_length with
  | Some n =>
      if truthy_int max_length
      then lit " Keep the summary under " ++ str_of_int n ++ lit " words."
      else []
  | None => []
  end.

(** The local [prompt], from the argument [text] of [generate_summary]. *)
Definition prompt_of (text : str) (max_length : option Z) : str :=
  lit "Please provide a concise summary of the following document."
  ++ length_instruction max_length
  ++ nl ++ nl ++ lit "Document:" ++ nl
  ++ truncated_text text
  ++ nl ++ nl ++ lit "Summary:".

(** [await client.post(.../api/generate, json={model, prompt, stream: False})] *)
Definition post_generate (env : environment) (model prompt : str) : M Httpx.Response :=
  record (PostGenerate model prompt) ;;;
  match ollama env model prompt with
  | Httpx.PostRaises msg => raise (RequestError msg)
  | Httpx.PostReturns r => ret r
  end.

(** [response.json()] followed by [result.get("response", "")] *)
Definition get_response (b : Httpx.json) : M Httpx.jvalue :=
  match b with
  | Httpx.JInvalid => raise (ValueError (lit "Expecting value"))
  | Httpx.JNotObject => raise (AttributeError (lit "object has no attribute 'get'"))
  | Httpx.JObject None => ret (Httpx.JString [])
  | Httpx.JObject (Some v) => ret v
  end.

(** [v.strip()] *)
Definition strip_value (v : Httpx.jvalue) : M str :=
  match v with
  | Httpx.JString s => ret (strip s)
  | Httpx.JOther => raise (AttributeError (lit "object has no attribute 'strip'"))
  end.

Definition empty_response : exn := Exception (lit "Empty response from Ollama").

Definition generate_summary (env : environment) (text : str) (model : str)
    (max_length : option Z) : M str :=
  let prompt := prompt_of text max_length in
  response <- post_generate env model prompt ;;
  if negb (Httpx.status_code response =? 200) then
    let error_msg := Httpx.text response in
    raise (Exception (lit "Ollama API returned status " ++ str_of_int (Httpx.status_code response)
                        ++ lit ": " ++ error_msg))
  else
    v <- get_response (Httpx.body response) ;;
    summary <- strip_value v ;;
    if negb (truthy summary) then raise empty_response
    else ret summary.

(** ** [main.py]: the [/summarize] handler *)

Record UploadFile : Type := {
  filename : str;
  content : document
}.

Record JSONResponse : Type := {
  resp_filename : str;
  resp_file_type : str;
  resp_model : str;
  original_length : Z;
  summary : str;
  summary_length : Z
}.

Definition supported_types : list str := [lit ".pdf"; lit ".docx"; lit ".doc"].

(** [model or OLLAMA_MODEL] *)
Definition model_or_default (env : environment) (model : option str) : str :=
  match model with
  | Some m => if truthy m then m else OLLAMA_MODEL env
  | None => OLLAMA_MODEL env
  end.

(** [None if (max_length is None or max_length <= 0) else max_length] *)
Definition normalize_max_length (max_length : option Z) : option Z :=
  match max_length with
  | None => None
  | Some n => if n <=? 0 then None else Some n
  end.

Definition summarize_document (env : environment) (file : UploadFile)
    (model : option str) (max_length : option Z) : M JSONResponse :=
  let file_ext := lower (Pathlib.suffix (filename file)) in
  if negb (mem file_ext supported_types) then
    raise (HTTPException 400
             (lit "Unsupported file type: " ++ file_ext
              ++ lit ". Supported types: .pdf, .docx, .doc"))
  else
    let model_name := model_or_default env model in
    let file_path := Pathlib.joinpath UPLOAD_DIR (filename file) in
    try_finally
      (save_upload env file_path (content file) ;;;
       text_content <-
         try_except
           (text_content <- parse_document env file_path file_ext ;;
            if negb (truthy text_content) || negb (truthy (strip text_content)) then
              raise (HTTPException 400
                       (lit "Could not extract text from document. The file might be empty or corrupted."))
            else ret text_content)
           (fun e =>
              raise (HTTPException 500 (lit "Failed to parse document: " ++ exn_str e))) ;;
       let normalized_max_length := normalize_max_length max_length in
       summary <-
         try_except
           (generate_summary env text_content model_name normalized_max_length)
           (fun e =>
              raise (HTTPException 500 (lit "Failed to generate summary: " ++ exn_str e))) ;;
       ret {| resp_filename := filename file;
              resp_file_type := file_ext;
              resp_model := model_name;
              original_length := len text_content;
              summary := summary;
              summary_length := len summary |})
      (file_exists <- path_exists file_path ;;
       if file_exists then unlink file_path else ret tt).

(** The status line the framework sends: 200 for a returned response, the
    status of a raised [HTTPException], 500 for any other exception. *)
Definition http_status {A} (o : outcome A) : Z :=
  match o with
  | Returns _ => 200
  | Raises (HTTPException status_code _) => status_code
  | Raises _ => 500
  end.

Definition client_error (status : Z) : bool := (400 <=? status) && (status <=? 499).

Definition server_error (status : Z) : bool := (500 <=? status) && (status <=? 599).

(** The handler run on a world: the status sent, and the world left. *)
Definition serve (env : environment) (file : UploadFile) (model : option str)
    (max_length : option Z) (w : world) : Z * world :=
  let (o, w') := summarize_document env file model max_length w in
  (http_status o, w').

(** ** [main.py]: the [/health] and [/models] handlers *)

(** Decoded JSON, as [response.json()] returns it.  An object is its list
    of members, with distinct keys; numbers matter here only as values that
    are neither strings nor containers. *)
Module Json.

#[local] Unset Elimination Schemes.

Inductive value : Type :=
| Null
| Bool (b : bool)
| Number (n : Z)
| String (s : str)
| Array (items : list value)
| Object (members : list (str * value)).

#[local] Set Elimination Schemes.

(** The member of a [dict] under [key], if any. *)
Fixpoint member (key : str) (members : list (str * value)) : option value :=
  match members with
  | [] => None
  | (k, v) :: rest => if PyStr.eqb k key then Some v else member key rest
  end.

(** [v.get(key, default)]: only a [dict] has the method. *)
Definition get (v : value) (key : str) (default : value) : outcome value :=
  match v with
  | Object members =>
      match member key members with
      | Some x => Returns x
      | None => Returns default
      end
  | _ => Raises (AttributeError (lit "object has no attribute 'get'"))
  end.

(** The values [for x in v] goes through: the items of a list, the keys of
    a [dict], the characters of a string; anything else is not iterable. *)
Definition iterate (v : value) : outcome (list value) :=
  match v with
  | Array items => Returns items
  | Object members => Returns (List.map (fun kv => String (fst kv)) members)
  | String s => Returns (List.map (fun c => String [c]) s)
  | _ => Raises (LibraryError (lit "object is not iterable"))
  end.

End Json.

(** What [client.get(.../api/tags)] does: raise, or return a response with
    its status and what [response.json()] makes of its body. *)
Inductive get_outcome : Type :=
| GetRaises (e : exn)
| GetReturns (status_code : Z) (json : outcome Json.value).

Definition is_RequestError (e : exn) : bool :=
  match e with
  | RequestError _ => true
  | _ => false
  end.

Module Health.

Record response : Type := {
  status : str;
  ollama_connected : bool;
  ollama_url : str
}.

End Health.

Definition health (OLLAMA_BASE_URL : str) (tags : get_outcome) : outcome Health.response :=
  let ollama_status :=
    match tags with
    | GetReturns status_code _ => status_code =? 200
    | GetRaises e => false
    end in
  Returns {| Health.status := if ollama_status then lit "healthy" else lit "degraded";
             Health.ollama_connected := ollama_status;
             Health.ollama_url := OLLAMA_BASE_URL |}.

Module Models.

Record response : Type := {
  models : list Json.value;
  current_model : str
}.

End Models.

(** [[model.get("name", "") for model in models]] *)
Fixpoint model_names (models : list Json.value) : outcome (list Json.value) :=
  match models with
  | [] => Returns []
  | model :: rest =>
      match Json.get model (lit "name") (Json.String []) with
      | Raises e => Raises e
      | Returns name =>
          match model_names rest with
          | Raises e => Raises e
          | Returns names => Returns (name :: names)
          end
      end
  end.

(** The body of the [try] of [list_models]. *)
Definition fetch_models (env : environment) (tags : get_outcome) : outcome Models.response :=
  match tags with
  | GetRaises e => Raises e
  | GetReturns status_code json =>
      if status_code =? 200 then
        match json with
        | Raises e => Raises e
        | Returns result =>
            match Json.get result (lit "models") (Json.Array []) with
            | Raises e => Raises e
            | Returns models =>
                match Json.iterate models with
                | Raises e => Raises e
                | Returns items =>
                    match model_names items with
                    | Raises e => Raises e
                    | Returns names =>
                        Returns {| Models.models := names;
                                   Models.current_model := OLLAMA_MODEL env |}
                    end
                end
            end
        end
      else Raises (HTTPException 500 (lit "Failed to fetch models"))
  end.

Definition list_models (env : environment) (tags : get_outcome) : outcome Models.response :=
  match fetch_models env tags with
  | Returns r => Returns r
  | Raises e =>
      if is_RequestError e then
        Raises (HTTPException 503 (lit "Cannot connect to Ollama: " ++ exn_str e))
      else Raises e
  end.

(** * Vocabulary of the properties *)

(** ** Texts *)

(** Every character of [s] is white space (so also: [s] is empty). *)
Definition is_blank (s : str) : bool := forallb isspace s.

(** The phrase every word-limit instruction of the prompt starts with. *)
Definition word_limit_phrase : str := lit "Keep the summary under".

(** What a page contributes to the extracted text: its text when the
    extraction returns a non-empty one, nothing otherwise. *)
Definition page_fragment (p : page) : list str :=
  match p with
  | PageText text => if truthy text then [text] else []
  | PageRaises _ => []
  end.

(** The texts of the pages that contribute, in page order. *)
Definition page_texts (pages : list page) : list str := flat_map page_fragment pages.

(** The text field of a decoded response body: [result.get("response", "")]
    when the body is an object and the member, if present, is a string. *)
Definition response_field (b : Httpx.json) : option str :=
  match b with
  | Httpx.JObject None => Some []
  | Httpx.JObject (Some (Httpx.JString s)) => Some s
  | _ => None
  end.

(** ** Worlds along a request *)

(** The world after the upload was written to [path]. *)
Definition saved (w : world) (path : str) (d : document) : world :=
  {| fs := <[path := d]> (fs w); trace := trace w ++ [OpenedForWrite path] |}.

(** The world after [parse_document] was entered: the call is recorded,
    the upload directory is as it was. *)
Definition parsing (w : world) (file_path file_ext : str) : world :=
  {| fs := fs w; trace := trace w ++ [ParseDocument file_path file_ext] |}.

(** The world after the prompt was posted. *)
Definition posting (w : world) (model prompt : str) : world :=
  {| fs := fs w; trace := trace w ++ [PostGenerate model prompt] |}.

(** The world after [path] was unlinked. *)
Definition unlinked (w : world) (path : str) : world :=
  {| fs := delete path (fs w); trace := trace w ++ [Unlinked path] |}.

(** What the [finally] clause of the handler leaves. *)
Definition cleaned (w : world) (path : str) : world :=
  if bool_decide (is_Some (fs w !! path)) then unlinked w path else w.

(** ** The exceptions the handler raises *)

(** For a failure of the parsing stage. *)
Definition parse_failure (e : exn) : exn :=
  HTTPException 500 (lit "Failed to parse document: " ++ exn_str e).

(** For a failure of the generation stage. *)
Definition generation_failure (e : exn) : exn :=
  HTTPException 500 (lit "Failed to generate summary: " ++ exn_str e).

(** For a parser that returned no text. *)
Definition no_text : exn :=
  HTTPException 400
    (lit "Could not extract text from document. The file might be empty or corrupted.").

(** ** Sample data *)

(** A text of 8001 characters. *)
Definition long_text : str := repeat 97%N (Z.to_nat 8001).

(** What a decoding library raises on a file of another format. *)
Definition undecodable : exn := LibraryError (lit "not a document of this format").

Definition pdf_document (pages : list page) : document :=
  {| pdf_pages := Returns pages;
     docx_paragraphs := Raises undecodable;
     doc_text := Raises undecodable |}.

Definition docx_document (paragraphs : list str) : document :=
  {| pdf_pages := Raises undecodable;
     docx_paragraphs := Returns paragraphs;
     doc_text := Raises undecodable |}.

(** A file that none of the libraries can decode. *)
Definition corrupt_document : document :=
  {| pdf_pages := Raises undecodable;
     docx_paragraphs := Raises undecodable;
     doc_text := Raises undecodable |}.

(** A response with status 200 whose text field is [answer]. *)
Definition ok_response (answer : str) : Httpx.Response :=
  {| Httpx.status_code := 200;
     Httpx.text := answer;
     Httpx.body := Httpx.JObject (Some (Httpx.JString answer)) |}.

(** A response with status 500 and the body ["model not found"]. *)
Definition error_response : Httpx.Response :=
  {| Httpx.status_code := 500;
     Httpx.text := lit "model not found";
     Httpx.body := Httpx.JInvalid |}.

(** An installation with every decoding package, a writable upload
    directory and a service that does [service] on every prompt. *)
Definition env_with (service : Httpx.post_outcome) : environment :=
  {| OLLAMA_MODEL := lit "deepseek-r1";
     has_PyPDF2 := true;
     has_docx := true;
     has_textract := true;
     saving := fun _ => SaveOk;
     ollama := fun _ _ => service |}.

(** The same, with a service that answers every prompt with [answer]. *)
Definition sample_env (answer : str) : environment :=
  env_with (Httpx.PostReturns (ok_response answer)).

(** The same, without the PDF package. *)
Definition env_without_PyPDF2 : environment :=
  {| OLLAMA_MODEL := lit "deepseek-r1";
     has_PyPDF2 := false;
     has_docx := true;
     has_textract := true;
     saving := fun _ => SaveOk;
     ollama := fun _ _ => Httpx.PostReturns (ok_response (lit "ok")) |}.

Definition empty_world : world := {| fs := ∅; trace := [] |}.

(** A world whose upload directory holds [d] at [path]. *)
Definition stored (path : str) (d : document) : world :=
  {| fs := {[ path := d ]}; trace := [] |}.

Definition text_file : UploadFile :=
  {| filename := lit "notes.TXT"; content := docx_document [lit "Hello"] |}.

Definition hello_docx : UploadFile :=
  {| filename := lit "hello.docx"; content := docx_document [lit "Hello"] |}.

(** A DOCX whose paragraphs are all blank. *)
Definition blank_docx : UploadFile :=
  {| filename := lit "blank.docx"; content := docx_document [lit ""; lit "  "] |}.

Definition hello_pdf : UploadFile :=
  {| filename := lit "hello.pdf"; content := pdf_document [PageText (lit "Hello")] |}.

Definition corrupt_pdf : UploadFile :=
  {| filename := lit "broken.pdf"; content := corrupt_document |}.

(** A file name that is an absolute path. *)
Definition absolute_docx : UploadFile :=
  {| filename := lit "/srv/data/report.docx"; content := docx_document [lit "Hello"] |}.

(** An installation whose upload directory cannot be opened for writing. *)
Definition env_read_only : environment :=
  {| OLLAMA_MODEL := lit "deepseek-r1";
     has_PyPDF2 := true;
     has_docx := true;
     has_textract := true;
     saving := fun _ => OpenRaises (OSError (lit "Permission denied"));
     ollama := fun _ _ => Httpx.PostReturns (ok_response (lit "ok")) |}.

(** An installation with none of the decoding packages. *)
Definition env_bare : environment :=
  {| OLLAMA_MODEL := lit "deepseek-r1";
     has_PyPDF2 := false;
     has_docx := false;
     has_textract := false;
     saving := fun _ => SaveOk;
     ollama := fun _ _ => Httpx.PostReturns (ok_response (lit "ok")) |}.

(** The body of [/api/tags] for two models, the second without a name. *)
Definition two_models : Json.value :=
  Json.Object
    [(lit "models",
      Json.Array [Json.Object [(lit "name", Json.String (lit "llama2"))];
                  Json.Object [(lit "size", Json.Number 7)]])].

(** ** Failure kinds *)

(** The failure kinds of the specification. *)
Inductive failure_kind : Type :=
| UnsupportedFormat
| CapabilityUnavailable
| ExtractionFailed
| ServiceUnreachable
| ServiceError
| EmptyResponse.

(** The status class the specification gives each kind. *)
Definition specified_client_error (k : failure_kind) : bool :=
  match k with
  | UnsupportedFormat | ExtractionFailed | EmptyResponse => true
  | CapabilityUnavailable | ServiceUnreachable | ServiceError => false
  end.

(** The status the handler sends for each kind. *)
Definition status_of_kind (k : failure_kind) : Z :=
  match k with
  | UnsupportedFormat => 400
  | _ => 500
  end.

Section Failures.

Variable env : environment.
Variable file : UploadFile.
Variable model : option str.
Variable max_length : option Z.
Variable w : world.

Let file_ext := lower (Pathlib.suffix (filename file)).
Let file_path := Pathlib.joinpath UPLOAD_DIR (filename file).
Let model_name := model_or_default env model.

(** The request is past validation and its upload is on disk. *)
Definition reaches_parser : Prop :=
  In file_ext supported_types /\ saving env file_path = SaveOk.

(** What [parser.parse_document] does on the saved upload. *)
Definition parsed : outcome str :=
  fst (parse_document env file_path file_ext (saved w file_path (content file))).

(** What the service does with the prompt built from [text_content]. *)
Definition reply (text_content : str) : Httpx.post_outcome :=
  ollama env model_name (prompt_of text_content (normalize_max_length max_length)).

(** The parser returned a text with something other than white space, so
    the request reaches the generation stage. *)
Definition reaches_generation (text_content : str) : Prop :=
  reaches_parser /\ parsed = Returns text_content /\ is_blank text_content = false.

(** The parser returned a text that is empty or all white space. *)
Definition extracts_no_text : Prop :=
  reaches_parser /\ exists text_content,
    parsed = Returns text_content /\ is_blank text_content = true.

(** The request fails with the given kind.  The parser tells a missing
    decoding package ([ImportError]) from a document it cannot decode (any
    other exception); [generate_summary] fails on a request that cannot be
    completed, on a status other than 200 and on an empty text field.
    [ExtractionFailed] is here the failure the parser raises; a parser
    that returns no text is [extracts_no_text]. *)
Inductive fails_with : failure_kind -> Prop :=
| Fails_unsupported :
    ~ In file_ext supported_types -> fails_with UnsupportedFormat
| Fails_capability msg :
    reaches_parser -> parsed = Raises (ImportError msg) ->
    fails_with CapabilityUnavailable
| Fails_extraction e :
    reaches_parser -> parsed = Raises e -> is_ImportError e = false ->
    fails_with ExtractionFailed
| Fails_unreachable text_content msg :
    reaches_generation text_content ->
    reply text_content = Httpx.PostRaises msg ->
    fails_with ServiceUnreachable
| Fails_service_error text_content r :
    reaches_generation text_content ->
    reply text_content = Httpx.PostReturns r ->
    Httpx.status_code r <> 200 ->
    fails_with ServiceError
| Fails_empty_response text_content r s :
    reaches_generation text_content ->
    reply text_content = Httpx.PostReturns r ->
    Httpx.status_code r = 200 ->
    response_field (Httpx.body r) = Some s ->
    is_blank s = true ->
    fails_with EmptyResponse.

End Failures.

(** ** Vocabulary of the further properties *)

Definition pdf_install_hint : str :=
  lit "PyPDF2 is required for PDF parsing. Install it with: pip install PyPDF2".

Definition docx_install_hint : str :=
  lit "python-docx is required for DOCX parsing. Install it with: pip install python-docx".

Definition doc_install_hint : str :=
  lit "textract is required for DOC parsing. Install it with: pip install textract".

(** What an [except ImportError / except Exception] pair of the parser
    makes of an exception. *)
Definition rewrapped (hint prefix : str) (e : exn) : exn :=
  if is_ImportError e then ImportError hint else Exception (prefix ++ exn_str e).

Definition file_missing : exn := OSError (lit "No such file or directory").

(** The variant [parse_document] dispatches to. *)
Definition variant (env : environment) (file_path file_ext : str) : option (M str) :=
  if PyStr.eqb file_ext (lit ".pdf") then Some (_parse_pdf env file_path)
  else if PyStr.eqb file_ext (lit ".docx") then Some (_parse_docx env file_path)
  else if PyStr.eqb file_ext (lit ".doc") then Some (_parse_doc env file_path)
  else None.

(** A page that contributes nothing: its extraction raises or returns the
    empty text. *)
Definition silent (p : page) : Prop :=
  match p with
  | PageText text => text = []
  | PageRaises _ => True
  end.

(** The name [list_models] reports for an entry of the tag list. *)
Definition entry_name (members : list (str * Json.value)) : Json.value :=
  match Json.member (lit "name") members with
  | Some name => name
  | None => Json.String []
  end.

(** * Properties *)

(** ** The string and path functions on examples *)

Example suffix_pdf : Pathlib.suffix (lit "report.final.PDF") = lit ".PDF".
Proof. reflexivity. Qed.

Example suffix_hidden : Pathlib.suffix (lit ".pdf") = [].
Proof. reflexivity. Qed.

Example suffix_dir : Pathlib.suffix (lit "a.b/c.docx/") = lit ".docx".
Proof. reflexivity. Qed.

Example strip_ex : strip (lit "  a b
 ") = lit "a b".
Proof. reflexivity. Qed.

Example str_of_int_ex : str_of_int 50 = lit "50" /\ str_of_int (-5) = lit "-5" /\ str_of_int 0 = lit "0".
Proof. repeat split; reflexivity. Qed.

Example joinpath_plain :
  Pathlib.joinpath UPLOAD_DIR (lit "hello.docx") = lit "uploads/hello.docx".
Proof. reflexivity. Qed.

Example joinpath_normalises :
  Pathlib.joinpath UPLOAD_DIR (lit "./hello.docx") = lit "uploads/hello.docx" /\
  Pathlib.joinpath UPLOAD_DIR (lit "a//b/") = lit "uploads/a/b" /\
  Pathlib.joinpath UPLOAD_DIR (lit "") = lit "uploads" /\
  Pathlib.joinpath UPLOAD_DIR (lit "../x.pdf") = lit "uploads/../x.pdf".
Proof. repeat split; reflexivity. Qed.

Example joinpath_absolute :
  Pathlib.joinpath UPLOAD_DIR (lit "/etc//x.pdf") = lit "/etc/x.pdf" /\
  Pathlib.joinpath UPLOAD_DIR (lit "//etc/x.pdf") = lit "//etc/x.pdf" /\
  Pathlib.joinpath UPLOAD_DIR (lit "///etc/x.pdf") = lit "/etc/x.pdf".
Proof. repeat split; reflexivity. Qed.

(** ** Strings *)

Section StringFacts.

Implicit Types (s t needle : str) (c : char).

Lemma lstrip_nil_iff s : lstrip s = [] <-> is_blank s = true.
Proof.
  induction s as [|c s IH]; simpl; [tauto|].
  destruct (isspace c); simpl; [exact IH|].
  split; discriminate.
Qed.

Lemma lstrip_head s c t : lstrip s = c :: t -> isspace c = false.
Proof.
  induction s as [|d s IH]; simpl; [discriminate|].
  destruct (isspace d) eqn:Hd; [exact IH|].
  intros [= <- _]. exact Hd.
Qed.

Lemma is_blank_rev s : is_blank (rev s) = is_blank s.
Proof.
  unfold is_blank. induction s as [|c s IH]; simpl; [reflexivity|].
  rewrite forallb_app, IH. simpl. rewrite andb_true_r. apply andb_comm.
Qed.

Lemma rev_nil_inv {A} (l : list A) : rev l = [] -> l = [].
Proof.
  intros H. apply (f_equal (@rev A)) in H. rewrite rev_involutive in H. exact H.
Qed.

(** The trimmed text is empty exactly when every character is white space. *)
Lemma strip_nil_iff s : strip s = [] <-> is_blank s = true.
Proof.
  unfold strip, rstrip. split.
  - intros H. apply rev_nil_inv in H. apply lstrip_nil_iff in H.
    rewrite is_blank_rev in H.
    destruct (lstrip s) as [|c t] eqn:E; [now apply lstrip_nil_iff|].
    apply lstrip_head in E. simpl in H. rewrite E in H. discriminate.
  - intros H. apply lstrip_nil_iff in H. rewrite H. reflexivity.
Qed.

Lemma truthy_strip s : truthy (strip s) = negb (is_blank s).
Proof.
  destruct (is_blank s) eqn:E.
  - apply strip_nil_iff in E. rewrite E. reflexivity.
  - destruct (strip s) eqn:E'; [|reflexivity].
    apply strip_nil_iff in E'. congruence.
Qed.

Lemma startswith_app s t : startswith (s ++ t) s = true.
Proof.
  induction s as [|c s IH]; simpl; [reflexivity|].
  rewrite N.eqb_refl. exact IH.
Qed.

Lemma contains_app_mid s needle t : contains (s ++ needle ++ t) needle = true.
Proof.
  induction s as [|c s IH]; simpl.
  - destruct (needle ++ t) eqn:E; simpl; rewrite <- E, startswith_app; reflexivity.
  - rewrite IH. apply orb_true_r.
Qed.

(** A needle that does not use [c] cannot straddle an occurrence of [c]. *)
Lemma startswith_cut c needle s t :
  ~ In c needle -> startswith (s ++ c :: t) needle = startswith s needle.
Proof.
  revert s. induction needle as [|d needle IH]; intros s Hc.
  - destruct s; reflexivity.
  - destruct s as [|a s]; simpl.
    + destruct (N.eqb_spec c d) as [->|_]; [|reflexivity].
      exfalso. apply Hc. now left.
    + rewrite IH; [reflexivity|]. intros H. apply Hc. now right.
Qed.

Lemma contains_cut c needle s t :
  ~ In c needle ->
  contains (s ++ c :: t) needle = contains s needle || contains t needle.
Proof.
  intros Hc. induction s as [|a s IH].
  - change ([] ++ c :: t) with (c :: t).
    change (contains (c :: t) needle)
      with (startswith ([] ++ c :: t) needle || contains t needle).
    rewrite startswith_cut by exact Hc.
    simpl. now rewrite orb_false_r.
  - change (contains ((a :: s) ++ c :: t) needle)
      with (startswith ((a :: s) ++ c :: t) needle || contains (s ++ c :: t) needle).
    rewrite startswith_cut by exact Hc. rewrite IH.
    change (contains (a :: s) needle)
      with (startswith (a :: s) needle || contains s needle).
    now rewrite orb_assoc.
Qed.

End StringFacts.

(** ** The prompt *)

Lemma len_gt_max_chars (text : str) :
  (len text >? max_chars) = true <-> 8000 < len text.
Proof. unfold max_chars. rewrite Z.gtb_ltb, Z.ltb_lt. tauto. Qed.

Lemma slice_to_max_chars (text : str) :
  slice_to text max_chars = take (Z.to_nat 8000) text.
Proof. reflexivity. Qed.

(** C2.  A text of 8000 + k characters (k > 0) appears in the prompt as its
    first 8000 characters followed by the marker ["... [truncated]"],
    whatever k is; a text of at most 8000 characters appears unmodified. *)
Theorem truncation_at_8000 (text : str) (max_length : option Z) :
  (forall k, 0 < k -> len text = 8000 + k ->
     let kept := take (Z.to_nat 8000) text in
     len kept = 8000 /\
     truncated_text text = kept ++ lit "... [truncated]" /\
     prompt_of text max_length =
       lit "Please provide a concise summary of the following document."
       ++ length_instruction max_length
       ++ nl ++ nl ++ lit "Document:" ++ nl
       ++ (kept ++ lit "... [truncated]")
       ++ nl ++ nl ++ lit "Summary:" /\
     (forall text' k', 0 < k' -> len text' = 8000 + k' ->
        take (Z.to_nat 8000) text' = kept ->
        prompt_of text' max_length = prompt_of text max_length)) /\
  (len text <= 8000 ->
     truncated_text text = text /\
     prompt_of text max_length =
       lit "Please provide a concise summary of the following document."
       ++ length_instruction max_length
       ++ nl ++ nl ++ lit "Document:" ++ nl
       ++ text
       ++ nl ++ nl ++ lit "Summary:").
Proof.
  split.
  - intros k Hk Hlen kept.
    assert (Hlong : truncated_text text = kept ++ lit "... [truncated]").
    { unfold truncated_text.
      destruct (len text >? max_chars) eqn:E.
      - now rewrite slice_to_max_chars.
      - assert (8000 < len text) as H by lia.
        apply len_gt_max_chars in H. congruence. }
    split; [|split; [exact Hlong|split]].
    + unfold kept, len in *. rewrite length_take. lia.
    + unfold prompt_of. now rewrite Hlong.
    + intros text' k' Hk' Hlen' Hsame.
      unfold prompt_of. rewrite Hlong. do 5 f_equal.
      unfold truncated_text.
      destruct (len text' >? max_chars) eqn:E.
      * rewrite slice_to_max_chars, Hsame. reflexivity.
      * assert (8000 < len text') as H by lia.
        apply len_gt_max_chars in H. congruence.
  - intros Hlen.
    assert (Hshort : truncated_text text = text).
    { unfold truncated_text.
      destruct (len text >? max_chars) eqn:E; [|reflexivity].
      apply len_gt_max_chars in E. lia. }
    split; [exact Hshort|]. unfold prompt_of. now rewrite Hshort.
Qed.

Lemma truncation_at_8000_witness :
  truncated_text long_text = take (Z.to_nat 8000) long_text ++ lit "... [truncated]"
  /\ truncated_text (lit "short") = lit "short".
Proof.
  split.
  - apply (proj1 (truncation_at_8000 long_text None) 1); [lia|].
    vm_compute. reflexivity.
  - apply (proj2 (truncation_at_8000 (lit "short") None)).
    vm_compute. discriminate.
Defined.

Lemma no_newline_in_phrase : ~ In 10%N word_limit_phrase.
Proof.
  intros H. vm_compute in H.
  repeat (destruct H as [H|H]; [discriminate H|]). exact H.
Qed.

(** C3.  With [max_length = 50] the prompt carries the instruction
    [" Keep the summary under 50 words."]; with [max_length = None] the
    length instruction is empty, and the word-limit phrase occurs in the
    prompt only where the document text itself has it. *)
Theorem length_instruction_presence (text : str) :
  contains (prompt_of text (Some 50)) (lit " Keep the summary under 50 words.") = true /\
  contains (prompt_of text (Some 50)) (lit "50") = true /\
  length_instruction None = [] /\
  prompt_of text None =
    lit "Please provide a concise summary of the following document."
    ++ nl ++ nl ++ lit "Document:" ++ nl
    ++ truncated_text text
    ++ nl ++ nl ++ lit "Summary:" /\
  contains (prompt_of text None) word_limit_phrase
    = contains (truncated_text text) word_limit_phrase.
Proof.
  split; [|split; [|split; [|split]]].
  - unfold prompt_of.
    change (length_instruction (Some 50)) with (lit " Keep the summary under 50 words.").
    apply contains_app_mid.
  - unfold prompt_of.
    change (length_instruction (Some 50))
      with (lit " Keep the summary under " ++ lit "50" ++ lit " words.").
    rewrite !app_assoc. rewrite <- !app_assoc.
    rewrite (app_assoc (lit "Please provide a concise summary of the following document.")).
    apply contains_app_mid.
  - reflexivity.
  - reflexivity.
  - unfold prompt_of, nl. simpl length_instruction. rewrite app_nil_l.
    pose proof no_newline_in_phrase as Hnl.
    change (lit "Please provide a concise summary of the following document."
            ++ [10%N] ++ [10%N] ++ lit "Document:" ++ [10%N]
            ++ truncated_text text ++ [10%N] ++ [10%N] ++ lit "Summary:")
      with (lit "Please provide a concise summary of the following document."
            ++ 10%N :: ([] ++ 10%N :: (lit "Document:"
            ++ 10%N :: (truncated_text text ++ 10%N :: ([] ++ 10%N :: lit "Summary:"))))).
    rewrite !contains_cut by exact Hnl.
    change (contains (lit "Please provide a concise summary of the following document.")
              word_limit_phrase) with false.
    change (contains [] word_limit_phrase) with false.
    change (contains (lit "Document:") word_limit_phrase) with false.
    change (contains (lit "Summary:") word_limit_phrase) with false.
    simpl. now rewrite orb_false_r.
Qed.

(** A text that itself asks for a word limit: the prompt built for it
    without [max_length] has an empty length instruction and still contains
    the word-limit phrase, the text being pasted as it is. *)
Lemma word_limit_phrase_from_text :
  length_instruction None = [] /\
  contains (prompt_of (lit "Keep the summary under 10 words.") None) word_limit_phrase
  = true.
Proof. split; vm_compute; reflexivity. Qed.

(** ** Normalisation of [max_length] *)

Lemma normalize_max_length_idem (max_length : option Z) :
  normalize_max_length (normalize_max_length max_length) = normalize_max_length max_length.
Proof.
  destruct max_length as [n|]; simpl; [|reflexivity].
  destruct (n <=? 0) eqn:E; simpl; [reflexivity|]. now rewrite E.
Qed.

(** ** Extraction *)

Lemma extract_page_fragment (text_parts : list str) (p : page) :
  extract_page text_parts p = text_parts ++ page_fragment p.
Proof.
  destruct p as [t|e]; simpl; [|now rewrite app_nil_r].
  destruct (truthy t); [reflexivity|now rewrite app_nil_r].
Qed.

Lemma fold_extract_page (pages : list page) (text_parts : list str) :
  fold_left extract_page pages text_parts = text_parts ++ page_texts pages.
Proof.
  revert text_parts. induction pages as [|p pages IH]; intros acc; simpl.
  - now rewrite app_nil_r.
  - rewrite IH, extract_page_fragment. unfold page_texts. now rewrite <- app_assoc.
Qed.

Lemma page_texts_app (l1 l2 : list page) :
  page_texts (l1 ++ l2) = page_texts l1 ++ page_texts l2.
Proof. unfold page_texts. apply flat_map_app. Qed.

Lemma page_texts_nonempty (pages : list page) :
  Forall (fun t : str => t <> []) (page_texts pages).
Proof.
  induction pages as [|p pages IH]; [constructor|].
  change (page_texts (p :: pages)) with (page_fragment p ++ page_texts pages).
  destruct p as [t|e]; simpl; [|exact IH].
  destruct t; simpl; [exact IH|]. constructor; [discriminate|exact IH].
Qed.

Section Parser.

Variable env : environment.
Variables (file_path : str) (d : document) (w : world).
Hypothesis Hfile : fs w !! file_path = Some d.

Lemma _extract_pdf_text_returns (pages : list page) :
  has_PyPDF2 env = true ->
  pdf_pages d = Returns pages ->
  _extract_pdf_text env file_path w
  = (Returns (join (nl ++ nl) (fold_left extract_page pages [])), w).
Proof.
  intros Hlib Hpages.
  unfold _extract_pdf_text, bind, import, read_file, lift, ret.
  rewrite Hlib, Hfile, Hpages. reflexivity.
Qed.

Lemma _parse_pdf_returns (pages : list page) :
  has_PyPDF2 env = true ->
  pdf_pages d = Returns pages ->
  _parse_pdf env file_path w
  = (Returns (join (nl ++ nl) (fold_left extract_page pages [])), w).
Proof.
  intros Hlib Hpages.
  unfold _parse_pdf, try_except, bind at 1. unfold import at 1. rewrite Hlib.
  unfold ret at 1, bind.
  rewrite (_extract_pdf_text_returns pages Hlib Hpages). reflexivity.
Qed.

Lemma _extract_docx_text_returns (paragraphs : list str) :
  has_docx env = true ->
  docx_paragraphs d = Returns paragraphs ->
  _extract_docx_text env file_path w
  = (Returns (join (nl ++ nl)
                (List.filter (fun para_text => truthy (strip para_text)) paragraphs)), w).
Proof.
  intros Hlib Hdoc.
  unfold _extract_docx_text, bind, import, read_file, lift, ret.
  rewrite Hlib, Hfile, Hdoc. reflexivity.
Qed.

Lemma _parse_docx_returns (paragraphs : list str) :
  has_docx env = true ->
  docx_paragraphs d = Returns paragraphs ->
  _parse_docx env file_path w
  = (Returns (join (nl ++ nl)
                (List.filter (fun para_text => truthy (strip para_text)) paragraphs)), w).
Proof.
  intros Hlib Hdoc.
  unfold _parse_docx, try_except, bind at 1. unfold import at 1. rewrite Hlib.
  unfold ret at 1, bind.
  rewrite (_extract_docx_text_returns paragraphs Hlib Hdoc). reflexivity.
Qed.

End Parser.

Lemma parse_document_pdf env file_path file_ext w :
  lower file_ext = lit ".pdf" ->
  parse_document env file_path file_ext w
  = _parse_pdf env file_path (parsing w file_path file_ext).
Proof.
  intros Hext. unfold parse_document, bind, record. rewrite Hext. reflexivity.
Qed.

Lemma parse_document_docx env file_path file_ext w :
  lower file_ext = lit ".docx" ->
  parse_document env file_path file_ext w
  = _parse_docx env file_path (parsing w file_path file_ext).
Proof.
  intros Hext. unfold parse_document, bind, record. rewrite Hext. reflexivity.
Qed.

Lemma filter_not_blank (paragraphs : list str) :
  List.filter (fun para_text => truthy (strip para_text)) paragraphs
  = List.filter (fun para_text => negb (is_blank para_text)) paragraphs.
Proof.
  induction paragraphs as [|p ps IH]; simpl; [reflexivity|].
  now rewrite truthy_strip, IH.
Qed.

(** C5.  Extraction of a DOCX drops the paragraphs whose trimmed text is
    empty and joins the others, in order, with a blank line; the paragraphs
    ["Hello"; ""; "  "; "World"] give ["Hello\n\nWorld"]. *)
Theorem docx_blank_paragraphs_dropped env file_path d w (paragraphs : list str) :
  has_docx env = true ->
  fs w !! file_path = Some d ->
  docx_paragraphs d = Returns paragraphs ->
  let kept := List.filter (fun p => negb (is_blank p)) paragraphs in
  fst (_extract_docx_text env file_path w) = Returns (join (nl ++ nl) kept) /\
  fst (parse_document env file_path (lit ".docx") w) = Returns (join (nl ++ nl) kept) /\
  (forall p, In p kept <-> In p paragraphs /\ strip p <> []) /\
  (paragraphs = [lit "Hello"; lit ""; lit "  "; lit "World"] ->
   fst (_extract_docx_text env file_path w)
   = Returns (lit "Hello" ++ nl ++ nl ++ lit "World")).
Proof.
  intros Hlib Hfile Hdoc kept.
  assert (Hx : _extract_docx_text env file_path w = (Returns (join (nl ++ nl) kept), w)).
  { rewrite (_extract_docx_text_returns env file_path d w Hfile paragraphs Hlib Hdoc).
    now rewrite filter_not_blank. }
  split; [now rewrite Hx|]. split; [|split].
  - rewrite parse_document_docx by reflexivity.
    rewrite (_parse_docx_returns env file_path d (parsing w file_path (lit ".docx"))
               Hfile paragraphs Hlib Hdoc).
    now rewrite filter_not_blank.
  - intros p. unfold kept. rewrite filter_In.
    split; intros [Hin Hp]; (split; [exact Hin|]).
    + intros E. apply strip_nil_iff in E. rewrite E in Hp. discriminate.
    + destruct (is_blank p) eqn:E; [|reflexivity].
      apply strip_nil_iff in E. contradiction.
  - intros ->. rewrite Hx. reflexivity.
Qed.

Lemma docx_blank_paragraphs_dropped_witness :
  fst (_extract_docx_text (sample_env []) (lit "uploads/a.docx")
         (stored (lit "uploads/a.docx")
            (docx_document [lit "Hello"; lit ""; lit "  "; lit "World"])))
  = Returns (lit "Hello" ++ nl ++ nl ++ lit "World").
Proof.
  apply (docx_blank_paragraphs_dropped (sample_env []) (lit "uploads/a.docx")
           (docx_document [lit "Hello"; lit ""; lit "  "; lit "World"])
           (stored (lit "uploads/a.docx")
              (docx_document [lit "Hello"; lit ""; lit "  "; lit "World"]))
           [lit "Hello"; lit ""; lit "  "; lit "World"]).
  - reflexivity.
  - apply lookup_singleton_eq.
  - reflexivity.
  - reflexivity.
Defined.

(** C6.  When the container of a PDF decodes, a page whose extraction
    raises does not make the extraction fail: the result is the texts of
    the other pages joined with a blank line.  For three pages of which the
    second raises, it is the text of page 1, a blank line, the text of
    page 3. *)
Theorem pdf_page_failure_skipped env file_path d w (before after : list page) (e : exn) :
  has_PyPDF2 env = true ->
  fs w !! file_path = Some d ->
  pdf_pages d = Returns (before ++ PageRaises e :: after) ->
  fst (_extract_pdf_text env file_path w)
  = Returns (join (nl ++ nl) (page_texts (before ++ after))) /\
  fst (parse_document env file_path (lit ".pdf") w)
  = Returns (join (nl ++ nl) (page_texts (before ++ after))) /\
  (forall p1 p3 : str,
     p1 <> [] -> p3 <> [] ->
     before = [PageText p1] -> after = [PageText p3] ->
     fst (_extract_pdf_text env file_path w) = Returns (p1 ++ nl ++ nl ++ p3)).
Proof.
  intros Hlib Hfile Hpages.
  assert (Hparts : fold_left extract_page (before ++ PageRaises e :: after) []
                   = page_texts (before ++ after)).
  { rewrite fold_extract_page, !page_texts_app. reflexivity. }
  assert (Hx : _extract_pdf_text env file_path w
               = (Returns (join (nl ++ nl) (page_texts (before ++ after))), w)).
  { rewrite (_extract_pdf_text_returns env file_path d w Hfile _ Hlib Hpages).
    now rewrite Hparts. }
  split; [now rewrite Hx|]. split.
  - rewrite parse_document_pdf by reflexivity.
    rewrite (_parse_pdf_returns env file_path d (parsing w file_path (lit ".pdf"))
               Hfile _ Hlib Hpages).
    now rewrite Hparts.
  - intros p1 p3 H1 H3 -> ->. rewrite Hx.
    destruct p1; [contradiction|]. destruct p3; [contradiction|]. reflexivity.
Qed.

Lemma pdf_page_failure_skipped_witness :
  fst (_extract_pdf_text (sample_env []) (lit "uploads/a.pdf")
         (stored (lit "uploads/a.pdf")
            (pdf_document [PageText (lit "one"); PageRaises undecodable;
                           PageText (lit "three")])))
  = Returns (lit "one" ++ nl ++ nl ++ lit "three").
Proof.
  apply (pdf_page_failure_skipped (sample_env []) (lit "uploads/a.pdf")
           (pdf_document [PageText (lit "one"); PageRaises undecodable;
                          PageText (lit "three")])
           (stored (lit "uploads/a.pdf")
              (pdf_document [PageText (lit "one"); PageRaises undecodable;
                             PageText (lit "three")]))
           [PageText (lit "one")] [PageText (lit "three")] undecodable).
  - reflexivity.
  - apply lookup_singleton_eq.
  - reflexivity.
  - discriminate.
  - discriminate.
  - reflexivity.
  - reflexivity.
Defined.

(** C9.  A page whose extraction returns an empty text is left out of the
    joined result like a page whose extraction raises: the fragments that
    are joined are all non-empty, and the result is the one of the same
    document without its empty pages. *)
Theorem pdf_empty_page_skipped env file_path d w (pages : list page) :
  has_PyPDF2 env = true ->
  fs w !! file_path = Some d ->
  pdf_pages d = Returns pages ->
  let text_parts := fold_left extract_page pages [] in
  fst (_extract_pdf_text env file_path w) = Returns (join (nl ++ nl) text_parts) /\
  Forall (fun t : str => t <> []) text_parts /\
  (forall before after,
     pages = before ++ PageText [] :: after ->
     text_parts = fold_left extract_page (before ++ after) []) /\
  (forall t, In t text_parts <-> t <> [] /\ In (PageText t) pages).
Proof.
  intros Hlib Hfile Hpages text_parts.
  split; [|split; [|split]].
  - now rewrite (_extract_pdf_text_returns env file_path d w Hfile pages Hlib Hpages).
  - unfold text_parts. rewrite fold_extract_page. apply page_texts_nonempty.
  - intros before after ->. unfold text_parts.
    rewrite !fold_extract_page, !page_texts_app. reflexivity.
  - intros t. unfold text_parts. rewrite fold_extract_page. simpl.
    unfold page_texts. rewrite in_flat_map. split.
    + intros [p [Hin Hp]]. destruct p as [t'|e']; simpl in Hp; [|contradiction].
      destruct t' as [|c t']; simpl in Hp; [contradiction|].
      destruct Hp as [<-|[]]. split; [discriminate|exact Hin].
    + intros [Hne Hin]. exists (PageText t). split; [exact Hin|].
      destruct t; [contradiction|]. now left.
Qed.

Lemma pdf_empty_page_skipped_witness :
  fst (_extract_pdf_text (sample_env []) (lit "uploads/b.pdf")
         (stored (lit "uploads/b.pdf")
            (pdf_document [PageText (lit "one"); PageText []; PageText (lit "three")])))
  = Returns (join (nl ++ nl) [lit "one"; lit "three"]).
Proof.
  apply (pdf_empty_page_skipped (sample_env []) (lit "uploads/b.pdf")
           (pdf_document [PageText (lit "one"); PageText []; PageText (lit "three")])
           (stored (lit "uploads/b.pdf")
              (pdf_document [PageText (lit "one"); PageText []; PageText (lit "three")]))
           [PageText (lit "one"); PageText []; PageText (lit "three")]).
  - reflexivity.
  - apply lookup_singleton_eq.
  - reflexivity.
Defined.

(** ** Generation *)

Lemma generate_summary_world env text model max_length w :
  snd (generate_summary env text model max_length w)
  = posting w model (prompt_of text max_length).
Proof.
  unfold generate_summary, bind, post_generate, record, bind, raise, ret.
  destruct (ollama env model (prompt_of text max_length)) as [msg|r]; [reflexivity|].
  destruct (Httpx.status_code r =? 200); simpl; [|reflexivity].
  unfold get_response, strip_value, raise, ret.
  destruct (Httpx.body r) as [| |[[s|]|]]; simpl; try reflexivity.
  - destruct (truthy (strip s)); reflexivity.
Qed.

(** C8.  [generate_summary] raises the empty-response failure exactly when
    the service answers with status 200 and a text field that is empty or
    all white space; it returns exactly when the service answers with
    status 200 and a text field that is not, and what it returns is that
    field trimmed, which is not empty. *)
Theorem empty_response_iff env text model max_length w :
  let prompt := prompt_of text max_length in
  let o := fst (generate_summary env text model max_length w) in
  (o = Raises empty_response <->
   exists r s,
     ollama env model prompt = Httpx.PostReturns r /\
     Httpx.status_code r = 200 /\
     response_field (Httpx.body r) = Some s /\
     is_blank s = true) /\
  (forall summary,
     o = Returns summary <->
     exists r s,
       ollama env model prompt = Httpx.PostReturns r /\
       Httpx.status_code r = 200 /\
       response_field (Httpx.body r) = Some s /\
       is_blank s = false /\
       summary = strip s) /\
  (forall summary, o = Returns summary -> summary <> []).
Proof.
  intros prompt o. subst o.
  unfold generate_summary, bind, post_generate, record, bind, raise, ret.
  fold prompt.
  destruct (ollama env model prompt) as [msg|r] eqn:Hpost; simpl.
  { split; [|split].
    - split; [discriminate|]. intros (r & s & [=] & _).
    - intros summary. split; [discriminate|]. intros (r & s & [=] & _).
    - discriminate. }
  destruct (Httpx.status_code r =? 200) eqn:Hstatus; simpl.
  2:{ apply Z.eqb_neq in Hstatus. split; [|split].
      - split.
        + intros [=].
        + intros (r' & s & [= <-] & Hs & _). contradiction.
      - intros summary. split; [discriminate|].
        intros (r' & s & [= <-] & Hs & _). contradiction.
      - discriminate. }
  apply Z.eqb_eq in Hstatus.
  unfold get_response, strip_value, raise, ret.
  destruct (Httpx.body r) as [| |[[s|]|]] eqn:Hbody; simpl.
  - split; [|split].
    + split; [discriminate|]. intros (r' & s & [= <-] & _ & Hf & _).
      rewrite Hbody in Hf. discriminate.
    + intros summary. split; [discriminate|].
      intros (r' & s & [= <-] & _ & Hf & _). rewrite Hbody in Hf. discriminate.
    + discriminate.
  - split; [|split].
    + split; [discriminate|]. intros (r' & s & [= <-] & _ & Hf & _).
      rewrite Hbody in Hf. discriminate.
    + intros summary. split; [discriminate|].
      intros (r' & s & [= <-] & _ & Hf & _). rewrite Hbody in Hf. discriminate.
    + discriminate.
  - rewrite truthy_strip. destruct (is_blank s) eqn:Hblank; simpl.
    + split; [|split].
      * split; [|reflexivity]. intros _. exists r, s.
        rewrite Hbody. repeat split; assumption.
      * intros summary. split; [discriminate|].
        intros (r' & s' & [= <-] & _ & Hf & Hb & _).
        rewrite Hbody in Hf. simpl in Hf. congruence.
      * discriminate.
    + split; [|split].
      * split; [intros [=]|].
        intros (r' & s' & [= <-] & _ & Hf & Hb).
        rewrite Hbody in Hf. simpl in Hf. congruence.
      * intros summary. split.
        -- intros [= <-]. exists r, s. rewrite Hbody. repeat split; assumption.
        -- intros (r' & s' & [= <-] & _ & Hf & _ & ->).
           rewrite Hbody in Hf. simpl in Hf. congruence.
      * intros summary [= <-] E. apply strip_nil_iff in E. congruence.
  - split; [|split].
    + split; [discriminate|]. intros (r' & s & [= <-] & _ & Hf & _).
      rewrite Hbody in Hf. discriminate.
    + intros summary. split; [discriminate|].
      intros (r' & s & [= <-] & _ & Hf & _). rewrite Hbody in Hf. discriminate.
    + discriminate.
  - split; [|split].
    + split; [|reflexivity]. intros _. exists r, [].
      rewrite Hbody. repeat split; assumption.
    + intros summary. split; [discriminate|].
      intros (r' & s' & [= <-] & _ & Hf & Hb & _).
      rewrite Hbody in Hf. simpl in Hf. injection Hf as <-. discriminate.
    + discriminate.
Qed.

Lemma empty_response_iff_witness :
  fst (generate_summary (sample_env (lit "  ")) (lit "Hello") (lit "deepseek-r1") None
         empty_world)
  = Raises empty_response.
Proof.
  apply (proj2 (proj1 (empty_response_iff (sample_env (lit "  ")) (lit "Hello")
                         (lit "deepseek-r1") None empty_world))).
  exists (ok_response (lit "  ")), (lit "  ").
  repeat split; reflexivity.
Defined.

(** ** The handler *)

Lemma try_finally_cleanup {A} (m : M A) (path : str) (w : world) :
  try_finally m
    (file_exists <- path_exists path ;; if file_exists then unlink path else ret tt) w
  = (fst (m w), cleaned (snd (m w)) path).
Proof.
  unfold try_finally, bind, path_exists, cleaned.
  destruct (m w) as [r w']. simpl.
  destruct (bool_decide (is_Some (fs w' !! path))); reflexivity.
Qed.


Lemma cleaned_present (w : world) (path : str) :
  is_Some (fs w !! path) -> cleaned w path = unlinked w path.
Proof. intros H. unfold cleaned. now rewrite bool_decide_eq_true_2. Qed.

Lemma _parse_pdf_world env file_path w : snd (_parse_pdf env file_path w) = w.
Proof.
  unfold _parse_pdf, _extract_pdf_text, try_except, bind, import, read_file, lift, raise, ret.
  destruct (has_PyPDF2 env); simpl; [|reflexivity].
  destruct (fs w !! file_path) as [d|]; simpl; [|reflexivity].
  destruct (pdf_pages d) as [pages|e]; simpl; [reflexivity|].
  destruct (is_ImportError e); reflexivity.
Qed.

Lemma _parse_docx_world env file_path w : snd (_parse_docx env file_path w) = w.
Proof.
  unfold _parse_docx, _extract_docx_text, try_except, bind, import, read_file, lift, raise, ret.
  destruct (has_docx env); simpl; [|reflexivity].
  destruct (fs w !! file_path) as [d|]; simpl; [|reflexivity].
  destruct (docx_paragraphs d) as [ps|e]; simpl; [reflexivity|].
  destruct (is_ImportError e); reflexivity.
Qed.

Lemma _parse_doc_world env file_path w : snd (_parse_doc env file_path w) = w.
Proof.
  unfold _parse_doc, try_except, bind, import, read_file, lift, raise, ret.
  destruct (has_textract env); simpl; [|reflexivity].
  destruct (fs w !! file_path) as [d|]; simpl; [|reflexivity].
  destruct (doc_text d) as [t|e]; simpl; [reflexivity|].
  destruct (is_ImportError e); reflexivity.
Qed.

Lemma parse_document_world env file_path file_ext w :
  snd (parse_document env file_path file_ext w) = parsing w file_path file_ext.
Proof.
  unfold parse_document, bind, record.
  change (let file_ext0 := lower file_ext in
          snd ((if PyStr.eqb file_ext0 (lit ".pdf") then _parse_pdf env file_path
                else if PyStr.eqb file_ext0 (lit ".docx") then _parse_docx env file_path
                else if PyStr.eqb file_ext0 (lit ".doc") then _parse_doc env file_path
                else raise (ValueError (lit "Unsupported file type: " ++ file_ext0)))
                 (parsing w file_path file_ext))
          = parsing w file_path file_ext).
  intros e.
  destruct (PyStr.eqb e (lit ".pdf")); [apply _parse_pdf_world|].
  destruct (PyStr.eqb e (lit ".docx")); [apply _parse_docx_world|].
  destruct (PyStr.eqb e (lit ".doc")); [apply _parse_doc_world|].
  reflexivity.
Qed.

Lemma blank_test (text_content : str) :
  negb (truthy text_content) || negb (truthy (strip text_content)) = is_blank text_content.
Proof.
  destruct text_content as [|c t]; [reflexivity|].
  rewrite truthy_strip, negb_involutive. reflexivity.
Qed.

Section Handler.

Variable env : environment.
Variable file : UploadFile.
Variable model : option str.
Variable max_length : option Z.
Variable w : world.

Let file_ext := lower (Pathlib.suffix (filename file)).
Let file_path := Pathlib.joinpath UPLOAD_DIR (filename file).
Let model_name := model_or_default env model.

(** An unsupported extension: nothing is saved, parsed or posted. *)
Lemma summarize_document_unsupported :
  mem file_ext supported_types = false ->
  summarize_document env file model max_length w
  = (Raises (HTTPException 400
               (lit "Unsupported file type: " ++ file_ext
                ++ lit ". Supported types: .pdf, .docx, .doc")), w).
Proof.
  intros H. unfold summarize_document. fold file_ext. rewrite H. reflexivity.
Qed.


(** The handler on an upload that was saved, stage by stage. *)
Lemma summarize_document_saved :
  mem file_ext supported_types = true ->
  saving env file_path = SaveOk ->
  let w1 := saved w file_path (content file) in
  let w2 := parsing w1 file_path file_ext in
  summarize_document env file model max_length w =
  match fst (parse_document env file_path file_ext w1) with
  | Raises e => (Raises (parse_failure e), unlinked w2 file_path)
  | Returns text_content =>
      if is_blank text_content then (Raises (parse_failure no_text), unlinked w2 file_path)
      else
        let normalized_max_length := normalize_max_length max_length in
        let w3 := posting w2 model_name (prompt_of text_content normalized_max_length) in
        match fst (generate_summary env text_content model_name normalized_max_length w2) with
        | Raises e => (Raises (generation_failure e), unlinked w3 file_path)
        | Returns summary =>
            (Returns {| resp_filename := filename file;
                        resp_file_type := file_ext;
                        resp_model := model_name;
                        original_length := len text_content;
                        summary := summary;
                        summary_length := len summary |},
             unlinked w3 file_path)
        end
  end.
Proof.
  intros Hext Hsave w1 w2.
  assert (Hthere : forall w' : world, fs w' = fs w1 -> is_Some (fs w' !! file_path)).
  { intros w' ->. unfold w1, saved. simpl. rewrite lookup_insert_eq. eauto. }
  unfold summarize_document. fold file_ext file_path model_name. rewrite Hext.
  cbn [negb]. rewrite try_finally_cleanup.
  match goal with |- (fst (?m w), _) = _ => set (body := m) end.
  assert (Hbody : body w =
    match fst (parse_document env file_path file_ext w1) with
    | Raises e => (Raises (parse_failure e), w2)
    | Returns text_content =>
        if is_blank text_content then (Raises (parse_failure no_text), w2)
        else
          let normalized_max_length := normalize_max_length max_length in
          let w3 := posting w2 model_name (prompt_of text_content normalized_max_length) in
          match fst (generate_summary env text_content model_name normalized_max_length w2) with
          | Raises e => (Raises (generation_failure e), w3)
          | Returns summary =>
              (Returns {| resp_filename := filename file;
                          resp_file_type := file_ext;
                          resp_model := model_name;
                          original_length := len text_content;
                          summary := summary;
                          summary_length := len summary |}, w3)
          end
    end).
  { unfold body, bind at 1. unfold save_upload. rewrite Hsave.
    fold (saved w file_path (content file)). fold w1. cbv beta iota.
    unfold bind at 1. unfold try_except at 1. unfold bind at 1.
    pose proof (parse_document_world env file_path file_ext w1) as Hw. fold w2 in Hw.
    destruct (parse_document env file_path file_ext w1) as [[text_content|e] w2'];
      cbn [snd] in Hw; subst w2'; cbn [fst]; [|reflexivity].
    rewrite blank_test.
    destruct (is_blank text_content); [reflexivity|].
    unfold ret at 1. cbv beta iota. unfold bind at 1. unfold try_except at 1.
    pose proof (generate_summary_world env text_content model_name
                  (normalize_max_length max_length) w2) as Hg.
    destruct (generate_summary env text_content model_name
                (normalize_max_length max_length) w2) as [[summary|e] w3'];
      cbn [snd] in Hg; subst w3'; reflexivity. }
  rewrite Hbody. clear Hbody body.
  destruct (fst (parse_document env file_path file_ext w1)) as [text_content|e].
  - destruct (is_blank text_content).
    + cbn [fst snd]. rewrite cleaned_present by (apply Hthere; reflexivity). reflexivity.
    + cbv zeta.
      destruct (fst (generate_summary env text_content model_name
                       (normalize_max_length max_length) w2)) as [summary|e];
        cbn [fst snd]; rewrite cleaned_present by (apply Hthere; reflexivity);
        reflexivity.
  - cbn [fst snd]. rewrite cleaned_present by (apply Hthere; reflexivity). reflexivity.
Qed.

End Handler.

Lemma eqb_eq (s t : str) : PyStr.eqb s t = true <-> s = t.
Proof.
  revert t. induction s as [|c s IH]; intros [|d t]; simpl; try (split; congruence).
  rewrite andb_true_iff, N.eqb_eq, IH. split.
  - intros [-> ->]. reflexivity.
  - intros [= -> ->]. split; reflexivity.
Qed.

Lemma mem_In (x : str) (l : list str) : mem x l = true <-> In x l.
Proof.
  unfold mem. rewrite existsb_exists. split.
  - intros [y [Hin Heq]]. apply eqb_eq in Heq. now subst.
  - intros Hin. exists x. split; [exact Hin|]. now apply eqb_eq.
Qed.

Lemma mem_not_In (x : str) (l : list str) : mem x l = false <-> ~ In x l.
Proof.
  rewrite <- mem_In. destruct (mem x l); split; congruence.
Qed.

(** ** Validation of the extension *)

(** C7.  A file name whose lower-cased extension is none of [.pdf],
    [.docx], [.doc] is rejected with status 400, and the handler has then
    made no call at all: nothing was saved, parsed or posted. *)
Theorem unsupported_extension_rejected env file model max_length w :
  ~ In (lower (Pathlib.suffix (filename file))) supported_types ->
  (exists detail,
     summarize_document env file model max_length w
     = (Raises (HTTPException 400 detail), w)) /\
  serve env file model max_length w = (400, w) /\
  client_error 400 = true /\
  trace (snd (summarize_document env file model max_length w)) = trace w.
Proof.
  intros H. apply mem_not_In in H.
  pose proof (summarize_document_unsupported env file model max_length w H) as E.
  split; [eauto|]. unfold serve. rewrite E. repeat split.
Qed.

Lemma unsupported_extension_rejected_witness :
  serve (sample_env (lit "ok")) text_file None None empty_world = (400, empty_world).
Proof.
  apply (unsupported_extension_rejected (sample_env (lit "ok")) text_file None None
           empty_world).
  vm_compute. intros H.
  repeat (destruct H as [H|H]; [discriminate H|]). exact H.
Defined.

(** The comparison ignores case: an upper-case extension is accepted. *)
Example upper_case_extension_supported :
  mem (lower (Pathlib.suffix (lit "REPORT.PDF"))) supported_types = true.
Proof. reflexivity. Qed.

(** ** Clean-up of the upload *)

Lemma summarize_document_saved_world env file model max_length w :
  let file_ext := lower (Pathlib.suffix (filename file)) in
  let file_path := Pathlib.joinpath UPLOAD_DIR (filename file) in
  mem file_ext supported_types = true ->
  saving env file_path = SaveOk ->
  exists calls,
    snd (summarize_document env file model max_length w)
    = {| fs := delete file_path (fs w);
         trace := trace w ++ OpenedForWrite file_path
                    :: ParseDocument file_path file_ext :: calls ++ [Unlinked file_path] |}
    /\ (calls = [] \/ exists model_name prompt, calls = [PostGenerate model_name prompt]).
Proof.
  intros file_ext file_path Hext Hsave.
  rewrite (summarize_document_saved env file model max_length w Hext Hsave).
  fold file_ext file_path.
  assert (Hfs : forall calls,
    {| fs := delete file_path (<[file_path := content file]> (fs w));
       trace := ((trace w ++ [OpenedForWrite file_path])
                 ++ [ParseDocument file_path file_ext]) ++ calls ++ [Unlinked file_path] |}
    = {| fs := delete file_path (fs w);
         trace := trace w ++ OpenedForWrite file_path
                    :: ParseDocument file_path file_ext :: calls ++ [Unlinked file_path] |}).
  { intros calls. rewrite delete_insert_eq. rewrite <- !app_assoc. reflexivity. }
  destruct (fst (parse_document env file_path file_ext
                   (saved w file_path (content file)))) as [text_content|e].
  - destruct (is_blank text_content).
    + exists []. split; [|now left]. cbn [snd]. apply (Hfs []).
    + cbv zeta.
      destruct (fst (generate_summary _ _ _ _ _)) as [s|e];
        (eexists [PostGenerate _ _]; split; [|right; eauto]);
        cbn [snd]; unfold unlinked, posting, parsing, saved; cbn [fs trace];
        rewrite <- (Hfs [PostGenerate _ _]); rewrite <- !app_assoc; reflexivity.
  - exists []. split; [|now left]. cbn [snd]. apply (Hfs []).
Qed.



(** ** Normalisation at the boundary *)

(** C4.  [None], 0 and every negative [max_length] are normalised to
    [None] (unlimited), every positive one to itself; normalising twice is
    normalising once; the prompt the handler posts is built from the
    normalised value. *)
Theorem max_length_normalized :
  normalize_max_length None = None /\
  normalize_max_length (Some (-5)) = None /\
  normalize_max_length (Some 0) = None /\
  normalize_max_length (Some 1) = Some 1 /\
  normalize_max_length (Some 100) = Some 100 /\
  (forall n, n <= 0 -> normalize_max_length (Some n) = None) /\
  (forall n, 0 < n -> normalize_max_length (Some n) = Some n) /\
  (forall max_length,
     normalize_max_length (normalize_max_length max_length)
     = normalize_max_length max_length) /\
  (forall env file model max_length w,
     let file_ext := lower (Pathlib.suffix (filename file)) in
     let file_path := Pathlib.joinpath UPLOAD_DIR (filename file) in
     forall text_content,
       In file_ext supported_types ->
       saving env file_path = SaveOk ->
       fst (parse_document env file_path file_ext (saved w file_path (content file)))
       = Returns text_content ->
       is_blank text_content = false ->
       trace (snd (summarize_document env file model max_length w))
       = trace w ++
         [OpenedForWrite file_path;
          ParseDocument file_path file_ext;
          PostGenerate (model_or_default env model)
            (prompt_of text_content (normalize_max_length max_length));
          Unlinked file_path]).
Proof.
  repeat (split; [reflexivity|]). split; [|split; [|split]].
  - intros n Hn. simpl. destruct (Z.leb_spec n 0); [reflexivity|lia].
  - intros n Hn. simpl. destruct (Z.leb_spec n 0); [lia|reflexivity].
  - apply normalize_max_length_idem.
  - intros env file model max_length w file_ext file_path text_content
      Hext Hsave Hparse Hblank.
    apply mem_In in Hext.
    rewrite (summarize_document_saved env file model max_length w Hext Hsave).
    fold file_ext file_path. rewrite Hparse, Hblank. cbv zeta.
    destruct (fst (generate_summary _ _ _ _ _)) as [s|e];
      cbn [snd]; unfold unlinked, posting, parsing, saved; cbn [fs trace];
      rewrite <- !app_assoc; reflexivity.
Qed.

Lemma max_length_normalized_witness :
  normalize_max_length (Some (-1)) = None /\
  normalize_max_length (Some 7) = Some 7 /\
  trace (snd (summarize_document (sample_env (lit "A greeting.")) hello_docx None
                (Some (-1)) empty_world))
  = [OpenedForWrite (lit "uploads/hello.docx");
     ParseDocument (lit "uploads/hello.docx") (lit ".docx");
     PostGenerate (lit "deepseek-r1") (prompt_of (lit "Hello") None);
     Unlinked (lit "uploads/hello.docx")].
Proof.
  pose proof max_length_normalized as (_ & _ & _ & _ & _ & Hle & Hgt & _ & Hrun).
  split; [apply Hle; lia|]. split; [apply Hgt; lia|].
  apply (Hrun (sample_env (lit "A greeting.")) hello_docx None (Some (-1)) empty_world
           (lit "Hello")).
  - vm_compute. right. left. reflexivity.
  - reflexivity.
  - vm_compute. reflexivity.
  - reflexivity.
Defined.

(** ** Failure kinds and status codes *)

Lemma generate_summary_unreachable env text model max_length w msg :
  ollama env model (prompt_of text max_length) = Httpx.PostRaises msg ->
  fst (generate_summary env text model max_length w) = Raises (RequestError msg).
Proof.
  intros H. unfold generate_summary, bind, post_generate, record, bind, raise.
  rewrite H. reflexivity.
Qed.

Lemma generate_summary_service_error env text model max_length w r :
  ollama env model (prompt_of text max_length) = Httpx.PostReturns r ->
  Httpx.status_code r <> 200 ->
  fst (generate_summary env text model max_length w)
  = Raises (Exception (lit "Ollama API returned status "
                         ++ str_of_int (Httpx.status_code r) ++ lit ": " ++ Httpx.text r)).
Proof.
  intros H Hs. apply Z.eqb_neq in Hs.
  unfold generate_summary, bind, post_generate, record, bind, raise, ret.
  rewrite H. cbn [negb]. rewrite Hs. reflexivity.
Qed.

Lemma generate_summary_empty env text model max_length w r s :
  ollama env model (prompt_of text max_length) = Httpx.PostReturns r ->
  Httpx.status_code r = 200 ->
  response_field (Httpx.body r) = Some s ->
  is_blank s = true ->
  fst (generate_summary env text model max_length w) = Raises empty_response.
Proof.
  intros H Hs Hf Hb. apply Z.eqb_eq in Hs.
  unfold generate_summary, bind, post_generate, record, bind, raise, ret.
  rewrite H. cbn [negb]. rewrite Hs. cbn [negb].
  unfold get_response, strip_value, raise, ret.
  destruct (Httpx.body r) as [| |[[s'|]|]]; try discriminate Hf.
  - injection Hf as ->. cbn [fst]. rewrite truthy_strip, Hb. reflexivity.
  - reflexivity.
Qed.

Section FailureFacts.

Variable env : environment.
Variable file : UploadFile.
Variable model : option str.
Variable max_length : option Z.
Variable w : world.

Let file_ext := lower (Pathlib.suffix (filename file)).
Let file_path := Pathlib.joinpath UPLOAD_DIR (filename file).
Let model_name := model_or_default env model.

Lemma parse_failure_status (e : exn) :
  reaches_parser env file -> parsed env file w = Raises e ->
  summarize_document env file model max_length w
  = (Raises (parse_failure e),
     unlinked (parsing (saved w file_path (content file)) file_path file_ext) file_path).
Proof.
  intros [Hext Hsave] Hp. apply mem_In in Hext.
  rewrite (summarize_document_saved env file model max_length w Hext Hsave).
  unfold parsed in Hp. rewrite Hp. reflexivity.
Qed.

Lemma generation_failure_status (text_content : str) (e : exn) :
  reaches_generation env file w text_content ->
  (forall w', fst (generate_summary env text_content model_name
                     (normalize_max_length max_length) w') = Raises e) ->
  fst (summarize_document env file model max_length w) = Raises (generation_failure e).
Proof.
  intros ([Hext Hsave] & Hp & Hb) Hg. apply mem_In in Hext.
  rewrite (summarize_document_saved env file model max_length w Hext Hsave).
  fold model_name. unfold parsed in Hp. rewrite Hp, Hb. cbv zeta.
  rewrite Hg. reflexivity.
Qed.

Lemma no_text_status :
  extracts_no_text env file w ->
  fst (summarize_document env file model max_length w) = Raises (parse_failure no_text).
Proof.
  intros ([Hext Hsave] & text_content & Hp & Hb). apply mem_In in Hext.
  rewrite (summarize_document_saved env file model max_length w Hext Hsave).
  unfold parsed in Hp. rewrite Hp, Hb. reflexivity.
Qed.

End FailureFacts.

(** C1, as the handler has it.  An unsupported extension is answered with
    the client-error status 400; every failure the parser raises (a missing
    decoding package, a document that cannot be decoded) and every failure
    of the generation stage (service unreachable, error status, empty
    response) is answered with the server-error status 500. *)
Theorem failure_kind_status env file model max_length w (k : failure_kind) :
  fails_with env file model max_length w k ->
  fst (serve env file model max_length w) = status_of_kind k /\
  client_error (status_of_kind k)
  = match k with UnsupportedFormat => true | _ => false end /\
  server_error (status_of_kind k)
  = match k with UnsupportedFormat => false | _ => true end.
Proof.
  intros H. split; [|destruct k; split; reflexivity].
  unfold serve.
  destruct (summarize_document env file model max_length w) as [o w'] eqn:E.
  cbn [fst].
  assert (Ho : o = fst (summarize_document env file model max_length w))
    by now rewrite E.
  clear E. subst o.
  destruct H as [Hext|msg Hr Hp|e Hr Hp _|text_content msg Hr Hpost
                 |text_content r Hr Hpost Hs|text_content r s Hr Hpost Hs Hf Hb].
  - apply mem_not_In in Hext.
    now rewrite (summarize_document_unsupported env file model max_length w Hext).
  - now rewrite (parse_failure_status env file model max_length w _ Hr Hp).
  - now rewrite (parse_failure_status env file model max_length w _ Hr Hp).
  - rewrite (generation_failure_status env file model max_length w text_content
               (RequestError msg) Hr); [reflexivity|].
    intros w0. now apply generate_summary_unreachable.
  - rewrite (generation_failure_status env file model max_length w text_content _ Hr
               (fun w0 => generate_summary_service_error env text_content _ _ w0 r Hpost Hs)).
    reflexivity.
  - rewrite (generation_failure_status env file model max_length w text_content _ Hr
               (fun w0 => generate_summary_empty env text_content _ _ w0 r s Hpost Hs Hf Hb)).
    reflexivity.
Qed.

Lemma blank_reply_fails_with_empty_response :
  fails_with (sample_env (lit "  ")) hello_docx None None empty_world EmptyResponse.
Proof.
  apply (Fails_empty_response _ _ _ _ _ (lit "Hello") (ok_response (lit "  ")) (lit "  ")).
  - split; [split|split].
    + vm_compute. right. left. reflexivity.
    + reflexivity.
    + vm_compute. reflexivity.
    + reflexivity.
  - reflexivity.
  - reflexivity.
  - reflexivity.
  - reflexivity.
Qed.

Lemma failure_kind_status_witness :
  fst (serve (sample_env (lit "  ")) hello_docx None None empty_world) = 500.
Proof.
  apply (failure_kind_status (sample_env (lit "  ")) hello_docx None None empty_world
           EmptyResponse).
  exact blank_reply_fails_with_empty_response.
Defined.

(** The status classes of the specification do not hold of the handler:
    this request fails with [EmptyResponse], a kind the specification maps
    to a client-error status, and is answered with 500. *)
Lemma empty_response_not_client_error :
  fails_with (sample_env (lit "  ")) hello_docx None None empty_world EmptyResponse /\
  specified_client_error EmptyResponse = true /\
  fst (serve (sample_env (lit "  ")) hello_docx None None empty_world) = 500 /\
  client_error 500 = false.
Proof.
  split; [exact blank_reply_fails_with_empty_response|].
  split; [reflexivity|]. split; vm_compute; reflexivity.
Qed.

(** A DOCX whose paragraphs are all blank: the handler raises its 400 inside
    the [try] whose [except Exception] turns it into a 500. *)
Example blank_docx_status :
  extracts_no_text (sample_env (lit "ok")) blank_docx empty_world /\
  fst (serve (sample_env (lit "ok")) blank_docx None None empty_world) = 500.
Proof.
  split; [|vm_compute; reflexivity].
  split; [split|].
  - vm_compute. right. left. reflexivity.
  - reflexivity.
  - exists []. split; [vm_compute|]; reflexivity.
Qed.

(** *** Each kind on a concrete request *)

Example capability_unavailable_status :
  fails_with env_without_PyPDF2 hello_pdf None None empty_world CapabilityUnavailable /\
  fst (serve env_without_PyPDF2 hello_pdf None None empty_world) = 500.
Proof.
  split; [|vm_compute; reflexivity].
  apply (Fails_capability _ _ _ _ _
           (lit "PyPDF2 is required for PDF parsing. Install it with: pip install PyPDF2")).
  - split; [vm_compute; left|]; reflexivity.
  - vm_compute. reflexivity.
Qed.

Example extraction_failed_status :
  fails_with (sample_env (lit "ok")) corrupt_pdf None None empty_world ExtractionFailed /\
  fst (serve (sample_env (lit "ok")) corrupt_pdf None None empty_world) = 500.
Proof.
  split; [|vm_compute; reflexivity].
  apply (Fails_extraction _ _ _ _ _
           (Exception (lit "Failed to parse PDF: not a document of this format"))).
  - split; [vm_compute; left|]; reflexivity.
  - vm_compute. reflexivity.
  - reflexivity.
Qed.

Example service_unreachable_status :
  let env := env_with (Httpx.PostRaises (lit "timed out")) in
  fails_with env hello_docx None None empty_world ServiceUnreachable /\
  fst (serve env hello_docx None None empty_world) = 500.
Proof.
  split; [|vm_compute; reflexivity].
  apply (Fails_unreachable _ _ _ _ _ (lit "Hello") (lit "timed out")); [|reflexivity].
  split; [split|split].
  - vm_compute. right. left. reflexivity.
  - reflexivity.
  - vm_compute. reflexivity.
  - reflexivity.
Qed.

(** A service that answers 500 with the body ["model not found"]: the
    handler answers 500 and its detail carries that body. *)
Example service_error_status :
  let env := env_with (Httpx.PostReturns error_response) in
  fails_with env hello_docx None None empty_world ServiceError /\
  exists detail,
    fst (summarize_document env hello_docx None None empty_world)
    = Raises (HTTPException 500 detail) /\
    contains detail (lit "model not found") = true.
Proof.
  split.
  - apply (Fails_service_error _ _ _ _ _ (lit "Hello") error_response);
      [|reflexivity|discriminate].
    split; [split|split].
    + vm_compute. right. left. reflexivity.
    + reflexivity.
    + vm_compute. reflexivity.
    + reflexivity.
  - eexists. split; [vm_compute; reflexivity|]. vm_compute. reflexivity.
Qed.

(** * Further properties of the code *)

(** ** The parser *)

Lemma lower_char_idem (c : char) : lower_char (lower_char c) = lower_char c.
Proof.
  unfold lower_char.
  destruct ((65 <=? c) && (c <=? 90))%N eqn:E; [|now rewrite E].
  apply andb_true_iff in E. destruct E as [E1 E2].
  apply N.leb_le in E1, E2.
  assert (((c + 32 <=? 90))%N = false) as -> by (apply N.leb_gt; lia).
  now rewrite andb_false_r.
Qed.

Lemma lower_idem (s : str) : lower (lower s) = lower s.
Proof.
  unfold lower. rewrite List.map_map. apply List.map_ext. apply lower_char_idem.
Qed.

Lemma _parse_pdf_outcome env file_path w :
  fst (_parse_pdf env file_path w) =
  if has_PyPDF2 env then
    match fs w !! file_path with
    | None => Raises (rewrapped pdf_install_hint (lit "Failed to parse PDF: ") file_missing)
    | Some d =>
        match pdf_pages d with
        | Returns pages => Returns (join (nl ++ nl) (fold_left extract_page pages []))
        | Raises e => Raises (rewrapped pdf_install_hint (lit "Failed to parse PDF: ") e)
        end
    end
  else Raises (ImportError pdf_install_hint).
Proof.
  unfold _parse_pdf, _extract_pdf_text, try_except, bind, import, read_file, lift, raise, ret,
    rewrapped.
  destruct (has_PyPDF2 env); [|reflexivity]. cbn [fst].
  destruct (fs w !! file_path) as [d|]; [|reflexivity].
  destruct (pdf_pages d) as [pages|e]; [reflexivity|].
  cbn [fst]. destruct (is_ImportError e); reflexivity.
Qed.

Lemma _parse_docx_outcome env file_path w :
  fst (_parse_docx env file_path w) =
  if has_docx env then
    match fs w !! file_path with
    | None => Raises (rewrapped docx_install_hint (lit "Failed to parse DOCX: ") file_missing)
    | Some d =>
        match docx_paragraphs d with
        | Returns paragraphs =>
            Returns (join (nl ++ nl)
                       (List.filter (fun para_text => truthy (strip para_text)) paragraphs))
        | Raises e => Raises (rewrapped docx_install_hint (lit "Failed to parse DOCX: ") e)
        end
    end
  else Raises (ImportError docx_install_hint).
Proof.
  unfold _parse_docx, _extract_docx_text, try_except, bind, import, read_file, lift, raise,
    ret, rewrapped.
  destruct (has_docx env); [|reflexivity]. cbn [fst].
  destruct (fs w !! file_path) as [d|]; [|reflexivity].
  destruct (docx_paragraphs d) as [ps|e]; [reflexivity|].
  cbn [fst]. destruct (is_ImportError e); reflexivity.
Qed.

Lemma _parse_doc_outcome env file_path w :
  fst (_parse_doc env file_path w) =
  if has_textract env then
    match fs w !! file_path with
    | None => Raises (rewrapped doc_install_hint (lit "Failed to parse DOC: ") file_missing)
    | Some d =>
        match doc_text d with
        | Returns text => Returns text
        | Raises e => Raises (rewrapped doc_install_hint (lit "Failed to parse DOC: ") e)
        end
    end
  else Raises (ImportError doc_install_hint).
Proof.
  unfold _parse_doc, try_except, bind, import, read_file, lift, raise, ret, rewrapped.
  destruct (has_textract env); [|reflexivity]. cbn [fst].
  destruct (fs w !! file_path) as [d|]; [|reflexivity].
  destruct (doc_text d) as [t|e]; [reflexivity|].
  cbn [fst]. destruct (is_ImportError e); reflexivity.
Qed.

Lemma parse_document_dispatch env file_path file_ext w :
  parse_document env file_path file_ext w =
  match variant env file_path (lower file_ext) with
  | Some parse => parse (parsing w file_path file_ext)
  | None =>
      (Raises (ValueError (lit "Unsupported file type: " ++ lower file_ext)),
       parsing w file_path file_ext)
  end.
Proof.
  unfold parse_document, bind, record, variant, raise.
  change (let file_ext0 := lower file_ext in
          (if PyStr.eqb file_ext0 (lit ".pdf") then _parse_pdf env file_path
           else if PyStr.eqb file_ext0 (lit ".docx") then _parse_docx env file_path
           else if PyStr.eqb file_ext0 (lit ".doc") then _parse_doc env file_path
           else fun w0 => (Raises (ValueError (lit "Unsupported file type: " ++ file_ext0)), w0))
            (parsing w file_path file_ext)
          = match
              (if PyStr.eqb (lower file_ext) (lit ".pdf") then Some (_parse_pdf env file_path)
               else if PyStr.eqb (lower file_ext) (lit ".docx")
                    then Some (_parse_docx env file_path)
               else if PyStr.eqb (lower file_ext) (lit ".doc")
                    then Some (_parse_doc env file_path)
               else None)
            with
            | Some parse => parse (parsing w file_path file_ext)
            | None =>
                (Raises (ValueError (lit "Unsupported file type: " ++ lower file_ext)),
                 parsing w file_path file_ext)
            end).
  cbv zeta.
  destruct (PyStr.eqb (lower file_ext) (lit ".pdf")); [reflexivity|].
  destruct (PyStr.eqb (lower file_ext) (lit ".docx")); [reflexivity|].
  destruct (PyStr.eqb (lower file_ext) (lit ".doc")); reflexivity.
Qed.

Lemma variant_none_iff env file_path (file_ext : str) :
  variant env file_path file_ext = None <-> ~ In file_ext supported_types.
Proof.
  rewrite <- mem_not_In. unfold variant, mem, supported_types. cbn [existsb].
  destruct (PyStr.eqb file_ext (lit ".pdf")); [split; discriminate|].
  destruct (PyStr.eqb file_ext (lit ".docx")); [split; discriminate|].
  destruct (PyStr.eqb file_ext (lit ".doc")); split; (discriminate || reflexivity).
Qed.

Lemma variant_same_fs env file_path file_ext parse (w w' : world) :
  variant env file_path file_ext = Some parse ->
  fs w = fs w' -> fst (parse w) = fst (parse w').
Proof.
  unfold variant. intros Hv Hfs.
  destruct (PyStr.eqb file_ext (lit ".pdf")).
  { injection Hv as <-. now rewrite !_parse_pdf_outcome, Hfs. }
  destruct (PyStr.eqb file_ext (lit ".docx")).
  { injection Hv as <-. now rewrite !_parse_docx_outcome, Hfs. }
  destruct (PyStr.eqb file_ext (lit ".doc")); [|discriminate].
  injection Hv as <-. now rewrite !_parse_doc_outcome, Hfs.
Qed.

Lemma variant_raises env file_path file_ext parse (w : world) (e : exn) :
  variant env file_path file_ext = Some parse ->
  fst (parse w) = Raises e ->
  (exists msg, e = ImportError msg) \/ (exists msg, e = Exception msg).
Proof.
  assert (Hre : forall hint prefix e0,
            (exists msg, rewrapped hint prefix e0 = ImportError msg) \/
            (exists msg, rewrapped hint prefix e0 = Exception msg)).
  { intros hint prefix e0. unfold rewrapped. destruct (is_ImportError e0); eauto. }
  unfold variant. intros Hv.
  destruct (PyStr.eqb file_ext (lit ".pdf")).
  { injection Hv as <-. rewrite _parse_pdf_outcome.
    destruct (has_PyPDF2 env); [|intros [= <-]; eauto].
    destruct (fs w !! file_path) as [d|]; [|intros [= <-]; apply Hre].
    destruct (pdf_pages d); [discriminate|intros [= <-]; apply Hre]. }
  destruct (PyStr.eqb file_ext (lit ".docx")).
  { injection Hv as <-. rewrite _parse_docx_outcome.
    destruct (has_docx env); [|intros [= <-]; eauto].
    destruct (fs w !! file_path) as [d|]; [|intros [= <-]; apply Hre].
    destruct (docx_paragraphs d); [discriminate|intros [= <-]; apply Hre]. }
  destruct (PyStr.eqb file_ext (lit ".doc")); [|discriminate].
  injection Hv as <-. rewrite _parse_doc_outcome.
  destruct (has_textract env); [|intros [= <-]; eauto].
  destruct (fs w !! file_path) as [d|]; [|intros [= <-]; apply Hre].
  destruct (doc_text d); [discriminate|intros [= <-]; apply Hre].
Qed.

Lemma variant_same_file env file_path file_ext parse (w w' : world) :
  variant env file_path file_ext = Some parse ->
  fs w !! file_path = fs w' !! file_path -> fst (parse w) = fst (parse w').
Proof.
  unfold variant. intros Hv Hfile.
  destruct (PyStr.eqb file_ext (lit ".pdf")).
  { injection Hv as <-. now rewrite !_parse_pdf_outcome, Hfile. }
  destruct (PyStr.eqb file_ext (lit ".docx")).
  { injection Hv as <-. now rewrite !_parse_docx_outcome, Hfile. }
  destruct (PyStr.eqb file_ext (lit ".doc")); [|discriminate].
  injection Hv as <-. now rewrite !_parse_doc_outcome, Hfile.
Qed.

(** X1.  [parse_document] reads the file at [file_path] and nothing else:
    it never changes the upload directory, also when it raises, and its
    outcome is the same in two worlds that hold the same file (or no file)
    at that path. *)
Theorem parser_reads_one_file env file_path file_ext w :
  fs (snd (parse_document env file_path file_ext w)) = fs w /\
  (forall w' : world,
     fs w !! file_path = fs w' !! file_path ->
     fst (parse_document env file_path file_ext w)
     = fst (parse_document env file_path file_ext w')).
Proof.
  split.
  - now rewrite parse_document_world.
  - intros w' Hfile. rewrite !parse_document_dispatch.
    destruct (variant env file_path (lower file_ext)) as [parse|] eqn:Hv; [|reflexivity].
    apply (variant_same_file env file_path (lower file_ext) parse _ _ Hv). exact Hfile.
Qed.

(** X2.  [parse_document] raises [ValueError] exactly for the extensions
    the handler rejects: on a request the handler lets through, the
    [ValueError] branch of the dispatcher is not taken. *)
Theorem parse_document_value_error_iff env file_path file_ext w :
  (exists msg, fst (parse_document env file_path file_ext w) = Raises (ValueError msg))
  <-> ~ In (lower file_ext) supported_types.
Proof.
  rewrite parse_document_dispatch.
  destruct (variant env file_path (lower file_ext)) as [parse|] eqn:Hv.
  - split.
    + intros [msg H].
      destruct (variant_raises env file_path (lower file_ext) parse _ _ Hv H)
        as [[m E]|[m E]]; discriminate E.
    + intros H. apply (variant_none_iff env file_path) in H. congruence.
  - split; [intros _; now apply (variant_none_iff env file_path)|].
    intros _. eexists. reflexivity.
Qed.

Lemma parse_document_value_error_iff_witness :
  exists msg,
    fst (parse_document (sample_env []) (lit "uploads/a.txt") (lit ".TXT") empty_world)
    = Raises (ValueError msg).
Proof.
  apply (parse_document_value_error_iff (sample_env []) (lit "uploads/a.txt") (lit ".TXT")
           empty_world).
  vm_compute. intros H.
  repeat (destruct H as [H|H]; [discriminate H|]). exact H.
Defined.

(** X3.  The dispatch ignores the case of the extension: [parse_document]
    has the same outcome on an extension and on its lower-cased form. *)
Theorem parse_document_ignores_case env file_path file_ext w :
  fst (parse_document env file_path file_ext w)
  = fst (parse_document env file_path (lower file_ext) w).
Proof.
  rewrite !parse_document_dispatch, lower_idem.
  destruct (variant env file_path (lower file_ext)) as [parse|] eqn:Hv; [|reflexivity].
  apply (variant_same_fs env file_path (lower file_ext) parse _ _ Hv). reflexivity.
Qed.

(** X4.  When the package of a format is missing, parsing a file of that
    format raises [ImportError] with the installation hint of the package,
    whatever the file holds. *)
Theorem missing_package_import_error env file_path file_ext w :
  (lower file_ext = lit ".pdf" -> has_PyPDF2 env = false ->
   fst (parse_document env file_path file_ext w)
   = Raises (ImportError
               (lit "PyPDF2 is required for PDF parsing. Install it with: pip install PyPDF2")))
  /\
  (lower file_ext = lit ".docx" -> has_docx env = false ->
   fst (parse_document env file_path file_ext w)
   = Raises (ImportError
               (lit "python-docx is required for DOCX parsing. Install it with: pip install python-docx")))
  /\
  (lower file_ext = lit ".doc" -> has_textract env = false ->
   fst (parse_document env file_path file_ext w)
   = Raises (ImportError
               (lit "textract is required for DOC parsing. Install it with: pip install textract"))).
Proof.
  rewrite parse_document_dispatch. repeat split; intros -> Hlib; cbn [variant PyStr.eqb].
  - change (variant env file_path (lit ".pdf")) with (Some (_parse_pdf env file_path)).
    cbv iota beta. now rewrite _parse_pdf_outcome, Hlib.
  - change (variant env file_path (lit ".docx")) with (Some (_parse_docx env file_path)).
    cbv iota beta. now rewrite _parse_docx_outcome, Hlib.
  - change (variant env file_path (lit ".doc")) with (Some (_parse_doc env file_path)).
    cbv iota beta. now rewrite _parse_doc_outcome, Hlib.
Qed.

Lemma missing_package_import_error_witness :
  fst (parse_document env_bare (lit "uploads/a.pdf") (lit ".PDF") empty_world)
  = Raises (ImportError
              (lit "PyPDF2 is required for PDF parsing. Install it with: pip install PyPDF2"))
  /\
  fst (parse_document env_bare (lit "uploads/a.docx") (lit ".docx") empty_world)
  = Raises (ImportError
              (lit "python-docx is required for DOCX parsing. Install it with: pip install python-docx"))
  /\
  fst (parse_document env_bare (lit "uploads/a.doc") (lit ".doc") empty_world)
  = Raises (ImportError
              (lit "textract is required for DOC parsing. Install it with: pip install textract")).
Proof.
  split; [|split].
  - apply (proj1 (missing_package_import_error env_bare (lit "uploads/a.pdf") (lit ".PDF")
                    empty_world)); reflexivity.
  - apply (proj1 (proj2 (missing_package_import_error env_bare (lit "uploads/a.docx")
                           (lit ".docx") empty_world))); reflexivity.
  - apply (proj2 (proj2 (missing_package_import_error env_bare (lit "uploads/a.doc")
                           (lit ".doc") empty_world))); reflexivity.
Defined.

(** X5.  When the library of a format raises on the stored file (anything
    but an [ImportError]), [parse_document] raises a plain [Exception]
    whose message is the format's prefix followed by the library's
    message; the class of the original exception is lost. *)
Theorem decode_error_wrapped env file_path file_ext d w (e : exn) :
  fs w !! file_path = Some d ->
  is_ImportError e = false ->
  (lower file_ext = lit ".pdf" -> has_PyPDF2 env = true -> pdf_pages d = Raises e ->
   fst (parse_document env file_path file_ext w)
   = Raises (Exception (lit "Failed to parse PDF: " ++ exn_str e))) /\
  (lower file_ext = lit ".docx" -> has_docx env = true -> docx_paragraphs d = Raises e ->
   fst (parse_document env file_path file_ext w)
   = Raises (Exception (lit "Failed to parse DOCX: " ++ exn_str e))) /\
  (lower file_ext = lit ".doc" -> has_textract env = true -> doc_text d = Raises e ->
   fst (parse_document env file_path file_ext w)
   = Raises (Exception (lit "Failed to parse DOC: " ++ exn_str e))).
Proof.
  intros Hfile He.
  assert (Hfile' : fs (parsing w file_path file_ext) !! file_path = Some d) by exact Hfile.
  rewrite parse_document_dispatch. repeat split; intros -> Hlib Hd.
  - change (variant env file_path (lit ".pdf")) with (Some (_parse_pdf env file_path)).
    cbv iota beta. rewrite _parse_pdf_outcome, Hlib, Hfile', Hd.
    unfold rewrapped. now rewrite He.
  - change (variant env file_path (lit ".docx")) with (Some (_parse_docx env file_path)).
    cbv iota beta. rewrite _parse_docx_outcome, Hlib, Hfile', Hd.
    unfold rewrapped. now rewrite He.
  - change (variant env file_path (lit ".doc")) with (Some (_parse_doc env file_path)).
    cbv iota beta. rewrite _parse_doc_outcome, Hlib, Hfile', Hd.
    unfold rewrapped. now rewrite He.
Qed.

Lemma decode_error_wrapped_witness :
  fst (parse_document (sample_env []) (lit "uploads/broken.pdf") (lit ".pdf")
         (stored (lit "uploads/broken.pdf") corrupt_document))
  = Raises (Exception (lit "Failed to parse PDF: " ++ exn_str undecodable)).
Proof.
  apply (proj1 (decode_error_wrapped (sample_env []) (lit "uploads/broken.pdf") (lit ".pdf")
                  corrupt_document (stored (lit "uploads/broken.pdf") corrupt_document)
                  undecodable (lookup_singleton_eq _ _) eq_refl));
    reflexivity.
Defined.

(** X6.  The failures of [parse_document] form a closed set: an
    [ImportError], a plain [Exception], or the [ValueError] of an
    unsupported extension.  No exception of a decoding library leaves the
    parser under its own class. *)
Theorem parser_failure_classes env file_path file_ext w (e : exn) :
  fst (parse_document env file_path file_ext w) = Raises e ->
  (exists msg, e = ImportError msg) \/
  (exists msg, e = Exception msg) \/
  (e = ValueError (lit "Unsupported file type: " ++ lower file_ext) /\
   ~ In (lower file_ext) supported_types).
Proof.
  rewrite parse_document_dispatch.
  destruct (variant env file_path (lower file_ext)) as [parse|] eqn:Hv.
  - intros H.
    destruct (variant_raises env file_path (lower file_ext) parse _ _ Hv H) as [E|E];
      [left|right; left]; exact E.
  - intros [= <-]. right. right. split; [reflexivity|].
    now apply (variant_none_iff env file_path).
Qed.

Lemma parser_failure_classes_witness :
  (exists msg, Exception (lit "Failed to parse PDF: " ++ exn_str undecodable)
               = ImportError msg) \/
  (exists msg, Exception (lit "Failed to parse PDF: " ++ exn_str undecodable)
               = Exception msg) \/
  (Exception (lit "Failed to parse PDF: " ++ exn_str undecodable)
   = ValueError (lit "Unsupported file type: " ++ lower (lit ".pdf")) /\
   ~ In (lower (lit ".pdf")) supported_types).
Proof.
  apply (parser_failure_classes (sample_env []) (lit "uploads/broken.pdf") (lit ".pdf")
           (stored (lit "uploads/broken.pdf") corrupt_document)).
  vm_compute. reflexivity.
Defined.

Lemma join_nil_iff (sep : str) (parts : list str) :
  Forall (fun t : str => t <> []) parts -> (join sep parts = [] <-> parts = []).
Proof.
  intros H. destruct H as [|p rest Hp Hrest]; [tauto|].
  split; [|discriminate]. intros E. exfalso.
  destruct rest as [|q rest]; simpl in E; [contradiction|].
  destruct p; [contradiction|discriminate].
Qed.

Lemma join_app (sep : str) (l1 l2 : list str) :
  l1 <> [] -> l2 <> [] -> join sep (l1 ++ l2) = join sep l1 ++ sep ++ join sep l2.
Proof.
  intros H1 H2. induction l1 as [|p l1 IH]; [contradiction|].
  destruct l1 as [|q l1].
  - destruct l2; [contradiction|]. reflexivity.
  - change (join sep ((p :: q :: l1) ++ l2)) with (p ++ sep ++ join sep ((q :: l1) ++ l2)).
    rewrite IH by discriminate.
    change (join sep (p :: q :: l1)) with (p ++ sep ++ join sep (q :: l1)).
    now rewrite <- !app_assoc.
Qed.

Lemma page_texts_nil_iff (pages : list page) : page_texts pages = [] <-> Forall silent pages.
Proof.
  induction pages as [|p pages IH].
  - split; [constructor|reflexivity].
  - change (page_texts (p :: pages)) with (page_fragment p ++ page_texts pages).
    split.
    + intros E. apply app_eq_nil in E. destruct E as [Ep Er].
      constructor; [|now apply IH].
      destruct p as [t|e]; simpl in *; [|exact I].
      destruct t; [reflexivity|discriminate].
    + intros H. inversion H as [|? ? Hp Hr]; subst.
      apply IH in Hr. rewrite Hr, app_nil_r.
      destruct p as [t|e]; simpl in *; [|reflexivity]. now subst.
Qed.

Lemma is_blank_app (s t : str) : is_blank (s ++ t) = is_blank s && is_blank t.
Proof. apply forallb_app. Qed.

Lemma is_blank_join (sep : str) (parts : list str) :
  parts <> [] -> Forall (fun p => is_blank p = false) parts ->
  is_blank (join sep parts) = false.
Proof.
  intros Hne H. destruct H as [|p rest Hp _]; [contradiction|].
  destruct rest; simpl; [exact Hp|].
  now rewrite is_blank_app, Hp.
Qed.

(** X7.  Extraction of a PDF whose container decodes always returns, and
    what it returns is the empty text exactly when every page raises or
    has an empty text: a document without extractable text is not an error
    of the parser. *)
Theorem pdf_text_empty_iff env file_path file_ext d w (pages : list page) :
  lower file_ext = lit ".pdf" ->
  has_PyPDF2 env = true ->
  fs w !! file_path = Some d ->
  pdf_pages d = Returns pages ->
  exists text,
    fst (parse_document env file_path file_ext w) = Returns text /\
    (text = [] <-> Forall silent pages).
Proof.
  intros Hext Hlib Hfile Hpages.
  rewrite parse_document_pdf by exact Hext.
  rewrite (_parse_pdf_returns env file_path d (parsing w file_path file_ext) Hfile pages
             Hlib Hpages).
  eexists. split; [reflexivity|].
  rewrite fold_extract_page. cbn [app].
  rewrite join_nil_iff by apply page_texts_nonempty.
  apply page_texts_nil_iff.
Qed.

Lemma pdf_text_empty_iff_witness :
  exists text,
    fst (parse_document (sample_env []) (lit "uploads/scan.pdf") (lit ".pdf")
           (stored (lit "uploads/scan.pdf")
              (pdf_document [PageText []; PageRaises undecodable])))
    = Returns text /\
    (text = [] <-> Forall silent [PageText []; PageRaises undecodable]).
Proof.
  apply (pdf_text_empty_iff (sample_env []) (lit "uploads/scan.pdf") (lit ".pdf")
           (pdf_document [PageText []; PageRaises undecodable])
           (stored (lit "uploads/scan.pdf")
              (pdf_document [PageText []; PageRaises undecodable]))).
  - reflexivity.
  - reflexivity.
  - apply lookup_singleton_eq.
  - reflexivity.
Defined.

Lemma filter_all_blank (paragraphs : list str) :
  Forall (fun p => is_blank p = true) paragraphs ->
  List.filter (fun p => negb (is_blank p)) paragraphs = [].
Proof.
  intros H. induction H as [|p ps Hp _ IH]; [reflexivity|].
  cbn [List.filter]. rewrite Hp. exact IH.
Qed.

(** X8.  The text extracted from a DOCX is never blank unless it is empty,
    and it is empty exactly when every paragraph is blank. *)
Theorem docx_text_blank_iff env file_path file_ext d w (paragraphs : list str) :
  lower file_ext = lit ".docx" ->
  has_docx env = true ->
  fs w !! file_path = Some d ->
  docx_paragraphs d = Returns paragraphs ->
  exists text,
    fst (parse_document env file_path file_ext w) = Returns text /\
    (is_blank text = true -> text = []) /\
    (text = [] <-> Forall (fun p => is_blank p = true) paragraphs).
Proof.
  intros Hext Hlib Hfile Hdoc.
  rewrite parse_document_docx by exact Hext.
  rewrite (_parse_docx_returns env file_path d (parsing w file_path file_ext) Hfile
             paragraphs Hlib Hdoc).
  eexists. split; [reflexivity|].
  rewrite filter_not_blank.
  set (kept := List.filter (fun p => negb (is_blank p)) paragraphs).
  assert (Hkept : Forall (fun p => is_blank p = false) kept).
  { apply List.Forall_forall. intros p Hp. apply filter_In in Hp.
    destruct Hp as [_ Hp]. now apply negb_true_iff in Hp. }
  assert (Hne : Forall (fun t : str => t <> []) kept).
  { eapply List.Forall_impl; [|exact Hkept]. intros p Hp ->. discriminate Hp. }
  split.
  - intros Hb. destruct kept as [|p rest] eqn:E; [reflexivity|].
    rewrite is_blank_join in Hb; [discriminate|discriminate|exact Hkept].
  - rewrite (join_nil_iff _ _ Hne). unfold kept. split.
    + intros E. apply List.Forall_forall. intros p Hp.
      destruct (is_blank p) eqn:Hb; [reflexivity|].
      assert (In p (List.filter (fun p => negb (is_blank p)) paragraphs)) as Hin
        by (apply filter_In; now rewrite Hb).
      rewrite E in Hin. destruct Hin.
    + apply filter_all_blank.
Qed.

Lemma docx_text_blank_iff_witness :
  exists text,
    fst (parse_document (sample_env []) (lit "uploads/blank.docx") (lit ".docx")
           (stored (lit "uploads/blank.docx") (docx_document [lit ""; lit "  "])))
    = Returns text /\
    (is_blank text = true -> text = []) /\
    (text = [] <-> Forall (fun p => is_blank p = true) [lit ""; lit "  "]).
Proof.
  apply (docx_text_blank_iff (sample_env []) (lit "uploads/blank.docx") (lit ".docx")
           (docx_document [lit ""; lit "  "])
           (stored (lit "uploads/blank.docx") (docx_document [lit ""; lit "  "]))).
  - reflexivity.
  - reflexivity.
  - apply lookup_singleton_eq.
  - reflexivity.
Defined.

(** X9.  Extraction of a PDF goes page by page: for pages split in two
    runs that both contribute text, the text of the whole is the text of
    the first run, a blank line, and the text of the second run. *)
Theorem pdf_text_of_runs env file_path d w (run1 run2 : list page) :
  has_PyPDF2 env = true ->
  fs w !! file_path = Some d ->
  pdf_pages d = Returns (run1 ++ run2) ->
  ~ Forall silent run1 ->
  ~ Forall silent run2 ->
  fst (_extract_pdf_text env file_path w)
  = Returns (join (nl ++ nl) (fold_left extract_page run1 [])
             ++ nl ++ nl
             ++ join (nl ++ nl) (fold_left extract_page run2 [])).
Proof.
  intros Hlib Hfile Hpages H1 H2.
  rewrite (_extract_pdf_text_returns env file_path d w Hfile _ Hlib Hpages).
  rewrite !fold_extract_page, page_texts_app. cbn [app fst].
  rewrite join_app.
  - now rewrite <- app_assoc.
  - intros E. apply H1. now apply page_texts_nil_iff.
  - intros E. apply H2. now apply page_texts_nil_iff.
Qed.

Lemma pdf_text_of_runs_witness :
  fst (_extract_pdf_text (sample_env []) (lit "uploads/c.pdf")
         (stored (lit "uploads/c.pdf")
            (pdf_document ([PageText (lit "one"); PageText (lit "two")]
                           ++ [PageText (lit "three")]))))
  = Returns (join (nl ++ nl)
               (fold_left extract_page [PageText (lit "one"); PageText (lit "two")] [])
             ++ nl ++ nl
             ++ join (nl ++ nl) (fold_left extract_page [PageText (lit "three")] [])).
Proof.
  apply (pdf_text_of_runs (sample_env []) (lit "uploads/c.pdf")
           (pdf_document ([PageText (lit "one"); PageText (lit "two")]
                          ++ [PageText (lit "three")]))).
  - reflexivity.
  - apply lookup_singleton_eq.
  - reflexivity.
  - intros H. inversion H as [|? ? Hp _]. discriminate Hp.
  - intros H. inversion H as [|? ? Hp _]. discriminate Hp.
Defined.

(** ** The prompt and the generation call *)

Lemma len_app (s t : str) : len (s ++ t) = len s + len t.
Proof. unfold len. rewrite length_app. lia. Qed.

Lemma truncated_text_long (text : str) :
  8000 < len text ->
  truncated_text text = take (Z.to_nat 8000) text ++ truncation_marker.
Proof.
  intros H. unfold truncated_text.
  apply len_gt_max_chars in H. now rewrite H.
Qed.

Lemma truncated_text_short (text : str) : len text <= 8000 -> truncated_text text = text.
Proof.
  intros H. unfold truncated_text.
  destruct (len text >? max_chars) eqn:E; [|reflexivity].
  apply len_gt_max_chars in E. lia.
Qed.

Lemma len_truncated_text (text : str) :
  len (truncated_text text) = if 8000 <? len text then 8015 else len text.
Proof.
  destruct (Z.ltb_spec 8000 (len text)) as [H|H].
  - rewrite truncated_text_long by exact H. rewrite len_app.
    change (len truncation_marker) with 15.
    unfold len in *. rewrite length_take. lia.
  - now rewrite truncated_text_short.
Qed.

(** X10.  The prompt is bounded: the document text takes at most 8015
    characters of it, and without a length instruction the whole prompt has
    at most 8096 characters (81 of template around the document text). *)
Theorem prompt_bounded (text : str) (max_length : option Z) :
  len (truncated_text text) <= 8015 /\
  len (prompt_of text max_length)
  = 81 + len (length_instruction max_length) + len (truncated_text text) /\
  len (prompt_of text None) <= 8096.
Proof.
  assert (Hbound : len (truncated_text text) <= 8015).
  { rewrite len_truncated_text. destruct (Z.ltb_spec 8000 (len text)); lia. }
  assert (Hlen : forall ml, len (prompt_of text ml)
                            = 81 + len (length_instruction ml) + len (truncated_text text)).
  { intros ml. unfold prompt_of. rewrite !len_app.
    change (len (lit "Please provide a concise summary of the following document.")) with 59.
    change (len nl) with 1. change (len (lit "Document:")) with 9.
    change (len (lit "Summary:")) with 8. lia. }
  split; [exact Hbound|]. split; [apply Hlen|].
  rewrite Hlen. change (len (length_instruction None)) with 0. lia.
Qed.

(** X11.  Truncation keeps the first 8000 characters of the text as they
    are, and truncating a truncated text changes nothing. *)
Theorem truncation_prefix_idempotent (text : str) :
  take (Z.to_nat 8000) (truncated_text text) = take (Z.to_nat 8000) text /\
  truncated_text (truncated_text text) = truncated_text text.
Proof.
  destruct (Z.ltb_spec 8000 (len text)) as [H|H].
  - assert (Hk : length (take (Z.to_nat 8000) text) = Z.to_nat 8000).
    { rewrite length_take. unfold len in H. lia. }
    assert (Hp : take (Z.to_nat 8000) (truncated_text text) = take (Z.to_nat 8000) text).
    { rewrite truncated_text_long by exact H.
      rewrite take_app_le by lia. rewrite take_take. f_equal; lia. }
    split; [exact Hp|].
    rewrite (truncated_text_long (truncated_text text)).
    + rewrite Hp. now rewrite truncated_text_long.
    + rewrite len_truncated_text.
      destruct (Z.ltb_spec 8000 (len text)); lia.
  - rewrite truncated_text_short by exact H. split; [reflexivity|].
    now apply truncated_text_short.
Qed.

(** X12.  [generate_summary] embeds a length instruction exactly when
    [max_length] is a number other than 0, a negative one included; after
    the normalisation of the handler that is exactly when it is positive. *)
Theorem length_instruction_empty_iff (max_length : option Z) :
  (length_instruction max_length = [] <-> max_length = None \/ max_length = Some 0) /\
  (forall n, n <> 0 ->
     length_instruction (Some n)
     = lit " Keep the summary under " ++ str_of_int n ++ lit " words.") /\
  (length_instruction (normalize_max_length max_length) = [] <->
   max_length = None \/ exists n, max_length = Some n /\ n <= 0).
Proof.
  assert (Hnz : forall n, n <> 0 ->
            length_instruction (Some n)
            = lit " Keep the summary under " ++ str_of_int n ++ lit " words.").
  { intros n Hn. unfold length_instruction, truthy_int.
    apply Z.eqb_neq in Hn. now rewrite Hn. }
  assert (Hiff : forall ml, length_instruction ml = [] <-> ml = None \/ ml = Some 0).
  { intros [n|]; [|split; [now left|reflexivity]].
    destruct (Z.eq_dec n 0) as [->|Hn].
    - split; [now right|reflexivity].
    - rewrite (Hnz n Hn). split; [discriminate|].
      intros [H|H]; [discriminate|]. injection H as ->. contradiction. }
  split; [apply Hiff|]. split; [exact Hnz|].
  rewrite Hiff. destruct max_length as [n|]; simpl.
  - destruct (Z.leb_spec n 0) as [H|H].
    + split; [intros _; right; eauto|now left].
    + split.
      * intros [E|E]; [discriminate|]. injection E as ->. lia.
      * intros [E|(m & E & Hm)]; [discriminate|]. injection E as ->. lia.
  - split; intros _; now left.
Qed.

(** X13.  Whatever the service does, [generate_summary] posts exactly once,
    with the model it was given and the prompt built from its arguments,
    and does not touch the upload directory: there is no second attempt.
    Its outcome depends on the answer of the service alone, not on the
    world it runs in. *)
Theorem generate_summary_posts_once env text model max_length w :
  let w' := snd (generate_summary env text model max_length w) in
  trace w' = trace w ++ [PostGenerate model (prompt_of text max_length)] /\
  fs w' = fs w /\
  (forall w0 : world,
     fst (generate_summary env text model max_length w)
     = fst (generate_summary env text model max_length w0)).
Proof.
  cbv zeta. rewrite generate_summary_world. split; [reflexivity|]. split; [reflexivity|].
  intros w0.
  unfold generate_summary, bind, post_generate, record, bind, raise, ret.
  destruct (ollama env model (prompt_of text max_length)) as [msg|r]; [reflexivity|].
  cbn [negb]. destruct (Httpx.status_code r =? 200); cbn [negb]; [|reflexivity].
  unfold get_response, strip_value, raise, ret.
  destruct (Httpx.body r) as [| |[[s|]|]]; cbn [fst]; try reflexivity.
  destruct (truthy (strip s)); reflexivity.
Qed.

Lemma contains_suffix (s t : str) : contains (s ++ t) t = true.
Proof. rewrite <- (app_nil_r t) at 1. apply contains_app_mid. Qed.

(** X14.  When the service answers with a status other than 200,
    [generate_summary] raises an [Exception] whose message gives the status
    and the body of the answer as they came, and the body is not decoded. *)
Theorem service_error_message env text model max_length w (r : Httpx.Response) :
  ollama env model (prompt_of text max_length) = Httpx.PostReturns r ->
  Httpx.status_code r <> 200 ->
  exists msg,
    fst (generate_summary env text model max_length w) = Raises (Exception msg) /\
    msg = lit "Ollama API returned status " ++ str_of_int (Httpx.status_code r)
          ++ lit ": " ++ Httpx.text r /\
    contains msg (Httpx.text r) = true /\
    contains msg (str_of_int (Httpx.status_code r)) = true.
Proof.
  intros Hpost Hs. eexists. split; [|split; [reflexivity|split]].
  - now apply generate_summary_service_error.
  - rewrite !app_assoc. apply contains_suffix.
  - apply contains_app_mid.
Qed.

Lemma service_error_message_witness :
  exists msg,
    fst (generate_summary (env_with (Httpx.PostReturns error_response)) (lit "Hello")
           (lit "deepseek-r1") None empty_world) = Raises (Exception msg) /\
    msg = lit "Ollama API returned status " ++ str_of_int 500
          ++ lit ": " ++ lit "model not found" /\
    contains msg (lit "model not found") = true /\
    contains msg (str_of_int 500) = true.
Proof.
  apply (service_error_message (env_with (Httpx.PostReturns error_response)) (lit "Hello")
           (lit "deepseek-r1") None empty_world error_response).
  - reflexivity.
  - discriminate.
Defined.

(** X15.  A status-200 answer whose body does not decode, is not an object
    or has a ["response"] that is not a string makes [generate_summary]
    raise a [ValueError] or an [AttributeError]: it gives no summary and is
    not reported as an empty response. *)
Theorem malformed_body_raises env text model max_length w (r : Httpx.Response) :
  ollama env model (prompt_of text max_length) = Httpx.PostReturns r ->
  Httpx.status_code r = 200 ->
  response_field (Httpx.body r) = None ->
  exists e,
    fst (generate_summary env text model max_length w) = Raises e /\
    e <> empty_response /\
    ((exists msg, e = ValueError msg) \/ (exists msg, e = AttributeError msg)).
Proof.
  intros Hpost Hs Hf. apply Z.eqb_eq in Hs.
  unfold generate_summary, bind, post_generate, record, bind, raise, ret.
  rewrite Hpost. cbn [negb]. rewrite Hs. cbn [negb].
  unfold get_response, strip_value, raise, ret.
  destruct (Httpx.body r) as [| |[[s|]|]]; try discriminate Hf; cbn [fst];
    eexists; (split; [reflexivity|]); (split; [discriminate|]); eauto.
Qed.

Lemma malformed_body_raises_witness :
  exists e,
    fst (generate_summary
           (env_with (Httpx.PostReturns
                        {| Httpx.status_code := 200;
                           Httpx.text := lit "<html>";
                           Httpx.body := Httpx.JInvalid |}))
           (lit "Hello") (lit "deepseek-r1") None empty_world) = Raises e /\
    e <> empty_response /\
    ((exists msg, e = ValueError msg) \/ (exists msg, e = AttributeError msg)).
Proof.
  apply (malformed_body_raises _ (lit "Hello") (lit "deepseek-r1") None empty_world
           {| Httpx.status_code := 200;
              Httpx.text := lit "<html>";
              Httpx.body := Httpx.JInvalid |}); reflexivity.
Defined.

(** ** Trimming *)

Lemma lstrip_fix (s : str) :
  (forall c t, s = c :: t -> isspace c = false) -> lstrip s = s.
Proof.
  destruct s as [|c t]; [reflexivity|]. intros H. simpl.
  now rewrite (H c t eq_refl).
Qed.

Lemma lstrip_idem (s : str) : lstrip (lstrip s) = lstrip s.
Proof. apply lstrip_fix. intros c t E. exact (lstrip_head s c t E). Qed.

Lemma lstrip_split (s : str) : exists ws, s = ws ++ lstrip s.
Proof.
  induction s as [|c s [ws IH]]; [now exists []|]. simpl.
  destruct (isspace c); [|now exists []].
  exists (c :: ws). simpl. now rewrite <- IH.
Qed.

Lemma rstrip_split (s : str) : exists ws, s = rstrip s ++ ws.
Proof.
  destruct (lstrip_split (rev s)) as [ws E].
  exists (rev ws). unfold rstrip. rewrite <- rev_app_distr, <- E.
  now rewrite rev_involutive.
Qed.

Lemma strip_idem (s : str) : strip (strip s) = strip s.
Proof.
  unfold strip. set (x := lstrip s).
  assert (Hl : lstrip (rstrip x) = rstrip x).
  { apply lstrip_fix. intros c t E.
    destruct (rstrip_split x) as [ws Hx]. rewrite E in Hx.
    apply (lstrip_head s c (t ++ ws)). exact Hx. }
  rewrite Hl. unfold rstrip. now rewrite rev_involutive, lstrip_idem.
Qed.

Lemma generate_summary_returns env text model max_length w (summary : str) :
  fst (generate_summary env text model max_length w) = Returns summary ->
  summary <> [] /\ strip summary = summary.
Proof.
  unfold generate_summary, bind, post_generate, record, bind, raise, ret.
  destruct (ollama env model (prompt_of text max_length)) as [msg|r]; [discriminate|].
  cbn [negb].
  destruct (Httpx.status_code r =? 200); cbn [negb]; [|discriminate].
  unfold get_response, strip_value, raise, ret.
  destruct (Httpx.body r) as [| |[[s|]|]]; cbn [fst]; try discriminate.
  destruct (truthy (strip s)) eqn:E; cbn [negb fst]; [|discriminate].
  intros [= <-]. split; [|apply strip_idem].
  intros H. rewrite H in E. discriminate.
Qed.

(** ** The handler *)

Section HandlerFacts.

Variable env : environment.
Variable file : UploadFile.
Variable model : option str.
Variable max_length : option Z.
Variable w : world.

Let file_ext := lower (Pathlib.suffix (filename file)).
Let file_path := Pathlib.joinpath UPLOAD_DIR (filename file).

Lemma summarize_document_open_fails (e : exn) :
  mem file_ext supported_types = true ->
  saving env file_path = OpenRaises e ->
  summarize_document env file model max_length w = (Raises e, cleaned w file_path).
Proof.
  intros Hext Hsave. unfold summarize_document. fold file_ext file_path. rewrite Hext.
  cbn [negb]. rewrite try_finally_cleanup.
  unfold bind at 1 2. unfold save_upload. rewrite Hsave. reflexivity.
Qed.

Lemma summarize_document_write_fails (e : exn) :
  mem file_ext supported_types = true ->
  saving env file_path = WriteRaises e ->
  summarize_document env file model max_length w
  = (Raises e, unlinked (saved w file_path (content file)) file_path).
Proof.
  intros Hext Hsave. unfold summarize_document. fold file_ext file_path. rewrite Hext.
  cbn [negb]. rewrite try_finally_cleanup.
  unfold bind at 1 2. unfold save_upload. rewrite Hsave. cbn [fst snd].
  fold (saved w file_path (content file)).
  rewrite cleaned_present; [reflexivity|].
  unfold saved. simpl. rewrite lookup_insert_eq. eauto.
Qed.

Lemma cleaned_fs (w0 : world) (path : str) : fs (cleaned w0 path) = delete path (fs w0).
Proof.
  unfold cleaned. destruct (bool_decide_reflect (is_Some (fs w0 !! path))) as [H|H].
  - reflexivity.
  - symmetry. apply delete_id. destruct (fs w0 !! path) eqn:E; [|reflexivity].
    exfalso. apply H. eauto.
Qed.

End HandlerFacts.

(** X16.  The net effect of a request on the upload directory: an
    unsupported extension leaves it as it was; otherwise no file is left at
    the upload's path, whether the request succeeded, failed in a stage, or
    could not even save the upload, so that a file that was at that path
    before is gone.  For a relative file name without [..] component,
    every other file is as before: every relative path without [..]
    component that [pathlib] renders differently from the upload's path.
    (Paths are told apart as [pathlib] renders them; links are not
    modelled.) *)
Theorem upload_directory_net_effect env file model max_length w :
  let file_ext := lower (Pathlib.suffix (filename file)) in
  let file_path := Pathlib.joinpath UPLOAD_DIR (filename file) in
  let w' := snd (summarize_document env file model max_length w) in
  (~ In file_ext supported_types -> w' = w) /\
  (In file_ext supported_types ->
   fs w' !! file_path = None /\
   (startswith (filename file) [Pathlib.slash] = false ->
    ~ In (lit "..") (Pathlib.parts (filename file)) ->
    forall path,
      startswith path [Pathlib.slash] = false ->
      ~ In (lit "..") (Pathlib.parts path) ->
      Pathlib.render path <> file_path ->
      fs w' !! Pathlib.render path = fs w !! Pathlib.render path)).
Proof.
  intros file_ext file_path w'. split.
  - intros H. apply mem_not_In in H. unfold w'.
    now rewrite (summarize_document_unsupported env file model max_length w H).
  - intros H. apply mem_In in H.
    assert (E : fs w' = delete file_path (fs w)).
    { unfold w'. destruct (saving env file_path) as [|e|e] eqn:Hsave.
      - destruct (summarize_document_saved_world env file model max_length w H Hsave)
          as (calls & E & _).
        now rewrite E.
      - rewrite (summarize_document_open_fails env file model max_length w e H Hsave).
        apply cleaned_fs.
      - rewrite (summarize_document_write_fails env file model max_length w e H Hsave).
        cbn [snd unlinked saved fs]. apply delete_insert_eq. }
    split.
    + rewrite E. apply lookup_delete_eq.
    + intros _ _ path _ _ Hne. rewrite E. apply lookup_delete_ne. congruence.
Qed.

Lemma upload_directory_net_effect_witness :
  fs (snd (summarize_document env_read_only hello_docx None None
             (stored (lit "uploads/other.docx") corrupt_document)))
  !! Pathlib.render (lit "uploads/./other.docx")
  = fs (stored (lit "uploads/other.docx") corrupt_document)
    !! Pathlib.render (lit "uploads/./other.docx").
Proof.
  refine (proj2 (proj2 (upload_directory_net_effect env_read_only hello_docx None None
                          (stored (lit "uploads/other.docx") corrupt_document)) _)
            _ _ (lit "uploads/./other.docx") _ _ _).
  - vm_compute. right. left. reflexivity.
  - reflexivity.
  - vm_compute. intros H. repeat (destruct H as [H|H]; [discriminate H|]). exact H.
  - reflexivity.
  - vm_compute. intros H. repeat (destruct H as [H|H]; [discriminate H|]). exact H.
  - vm_compute. discriminate.
Defined.

(** X17.  When the upload cannot be saved, the exception of the file
    system leaves the handler as it is (it is not wrapped in a 500 of the
    handler's own), and neither the parser nor the service is called. *)
Theorem save_failure_skips_pipeline env file model max_length w (e : exn) :
  let file_path := Pathlib.joinpath UPLOAD_DIR (filename file) in
  let run := summarize_document env file model max_length w in
  In (lower (Pathlib.suffix (filename file))) supported_types ->
  saving env file_path = OpenRaises e \/ saving env file_path = WriteRaises e ->
  fst run = Raises e /\
  forall c, In c (trace (snd run)) ->
            In c (trace w) \/ c = OpenedForWrite file_path \/ c = Unlinked file_path.
Proof.
  intros file_path run Hext Hsave. apply mem_In in Hext. unfold run.
  destruct Hsave as [Hsave|Hsave].
  - rewrite (summarize_document_open_fails env file model max_length w e Hext Hsave).
    split; [reflexivity|]. cbn [snd]. fold file_path. unfold cleaned.
    destruct (bool_decide (is_Some (fs w !! file_path))); [|now left].
    cbn [unlinked trace]. intros c Hc. apply in_app_or in Hc.
    destruct Hc as [Hc|[<-|[]]]; [now left|now right; right].
  - rewrite (summarize_document_write_fails env file model max_length w e Hext Hsave).
    split; [reflexivity|]. cbn [snd unlinked saved trace]. fold file_path.
    intros c Hc. apply in_app_or in Hc. destruct Hc as [Hc|[<-|[]]]; [|now right; right].
    apply in_app_or in Hc. destruct Hc as [Hc|[<-|[]]]; [now left|now right; left].
Qed.

Lemma save_failure_skips_pipeline_witness :
  fst (summarize_document env_read_only hello_docx None None empty_world)
  = Raises (OSError (lit "Permission denied")).
Proof.
  refine (proj1 (save_failure_skips_pipeline env_read_only hello_docx None None empty_world
                   (OSError (lit "Permission denied")) _ _)).
  - vm_compute. right. left. reflexivity.
  - left. reflexivity.
Defined.

(** X18.  Once the extension is accepted and the upload saved, the handler
    answers 200 or 500 and nothing else: the status 400 it raises for a
    document without text never reaches the client. *)
Theorem accepted_request_status env file model max_length w :
  In (lower (Pathlib.suffix (filename file))) supported_types ->
  saving env (Pathlib.joinpath UPLOAD_DIR (filename file)) = SaveOk ->
  fst (serve env file model max_length w) = 200 \/
  fst (serve env file model max_length w) = 500.
Proof.
  intros Hext Hsave. apply mem_In in Hext. unfold serve.
  rewrite (summarize_document_saved env file model max_length w Hext Hsave).
  destruct (fst (parse_document _ _ _ _)) as [text_content|e]; [|now right].
  destruct (is_blank text_content); [now right|]. cbv zeta.
  destruct (fst (generate_summary _ _ _ _ _)); [now left|now right].
Qed.

Lemma accepted_request_status_witness :
  fst (serve (sample_env (lit "ok")) blank_docx None None empty_world) = 200 \/
  fst (serve (sample_env (lit "ok")) blank_docx None None empty_world) = 500.
Proof.
  apply (accepted_request_status (sample_env (lit "ok")) blank_docx None None empty_world).
  - vm_compute. right. left. reflexivity.
  - reflexivity.
Defined.

(** X19.  What a returned response holds: the file name as uploaded, the
    lower-cased extension (one of the three), the model that was asked
    for when one was given and is not the empty string, the configured
    model otherwise, that being also the model the prompt was posted
    with, the length of the extracted text before truncation, and a
    summary that is not empty, has no white space at either end, and whose
    length is the reported one. *)
Theorem success_response_fields env file model max_length w (r : JSONResponse) :
  fst (summarize_document env file model max_length w) = Returns r ->
  resp_filename r = filename file /\
  resp_file_type r = lower (Pathlib.suffix (filename file)) /\
  In (resp_file_type r) supported_types /\
  (forall m, model = Some m -> m <> [] -> resp_model r = m) /\
  (model = None \/ model = Some [] -> resp_model r = OLLAMA_MODEL env) /\
  (exists text_content,
     parsed env file w = Returns text_content /\
     is_blank text_content = false /\
     original_length r = len text_content /\
     In (PostGenerate (resp_model r)
           (prompt_of text_content (normalize_max_length max_length)))
        (trace (snd (summarize_document env file model max_length w)))) /\
  summary r <> [] /\
  strip (summary r) = summary r /\
  summary_length r = len (summary r) /\
  0 < summary_length r.
Proof.
  intros H.
  destruct (mem (lower (Pathlib.suffix (filename file))) supported_types) eqn:Hext.
  2:{ rewrite (summarize_document_unsupported env file model max_length w Hext) in H.
      discriminate H. }
  destruct (saving env (Pathlib.joinpath UPLOAD_DIR (filename file))) as [|e|e] eqn:Hsave.
  2:{ rewrite (summarize_document_open_fails env file model max_length w e Hext Hsave) in H.
      discriminate H. }
  2:{ rewrite (summarize_document_write_fails env file model max_length w e Hext Hsave) in H.
      discriminate H. }
  pose proof (summarize_document_saved env file model max_length w Hext Hsave) as E.
  cbv zeta in E. rewrite E in H |- *. clear E.
  unfold parsed.
  destruct (fst (parse_document _ _ _ _)) as [text_content|e]; [|discriminate H].
  destruct (is_blank text_content) eqn:Hblank; [discriminate H|].
  destruct (fst (generate_summary _ _ _ _ _)) as [s|e] eqn:Hg; [|discriminate H].
  cbn [fst] in H. injection H as <-.
  cbn [resp_filename resp_file_type resp_model original_length summary summary_length snd].
  apply generate_summary_returns in Hg. destruct Hg as [Hne Hstrip].
  assert (Hsome : forall m, model = Some m -> m <> [] -> model_or_default env model = m).
  { intros m -> Hm. unfold model_or_default. destruct m; [contradiction|reflexivity]. }
  assert (Hnone : model = None \/ model = Some [] ->
                  model_or_default env model = OLLAMA_MODEL env).
  { intros [->| ->]; reflexivity. }
  repeat split; try assumption; try reflexivity.
  - now apply mem_In.
  - exists text_content. repeat split; try assumption; try reflexivity.
    unfold unlinked, posting. cbn [trace].
    apply in_or_app. left. apply in_or_app. right. now left.
  - destruct s; [contradiction|]. unfold len. simpl length. lia.
Qed.

Lemma success_response_fields_witness :
  exists r,
    fst (summarize_document (sample_env (lit " A greeting. ")) hello_docx
           (Some (lit "llama2")) (Some 20) empty_world) = Returns r /\
    resp_model r = lit "llama2" /\
    summary r = lit "A greeting." /\
    original_length r = 5.
Proof.
  eexists. split; [vm_compute; reflexivity|].
  pose proof (success_response_fields (sample_env (lit " A greeting. ")) hello_docx
                (Some (lit "llama2")) (Some 20) empty_world _ eq_refl) as H.
  split; [|split; reflexivity].
  apply (proj1 (proj2 (proj2 (proj2 H))) (lit "llama2") eq_refl). discriminate.
Defined.

Lemma render_absolute (p : str) :
  startswith p [Pathlib.slash] = true ->
  startswith (Pathlib.render p) [Pathlib.slash] = true.
Proof.
  intros H. unfold Pathlib.render, Pathlib.root. rewrite H.
  destruct (startswith p [Pathlib.slash; Pathlib.slash]
            && negb (startswith p [Pathlib.slash; Pathlib.slash; Pathlib.slash]));
    reflexivity.
Qed.

Lemma joinpath_absolute_name (base p : str) :
  startswith p [Pathlib.slash] = true -> Pathlib.joinpath base p = Pathlib.render p.
Proof. intros H. unfold Pathlib.joinpath, Pathlib.os_path_join. now rewrite H. Qed.

(** X20.  The path of the upload is not confined to the upload directory:
    for a file name that is an absolute path, the upload's path is that
    path as [pathlib] renders it (the file name itself when it is already
    in that form), it is absolute, the handler writes the upload there and
    unlinks it at the end, so that a file that was there is gone. *)
Theorem absolute_filename_escapes env file model max_length w :
  let file_path := Pathlib.render (filename file) in
  let w' := snd (summarize_document env file model max_length w) in
  startswith (filename file) [Pathlib.slash] = true ->
  In (lower (Pathlib.suffix (filename file))) supported_types ->
  saving env file_path = SaveOk ->
  Pathlib.joinpath UPLOAD_DIR (filename file) = file_path /\
  (Pathlib.render (filename file) = filename file ->
   Pathlib.joinpath UPLOAD_DIR (filename file) = filename file) /\
  startswith file_path [Pathlib.slash] = true /\
  In (OpenedForWrite file_path) (trace w') /\
  In (Unlinked file_path) (trace w') /\
  fs w' !! file_path = None.
Proof.
  intros file_path w' Habs Hext Hsave. apply mem_In in Hext.
  assert (Hpath : Pathlib.joinpath UPLOAD_DIR (filename file) = file_path)
    by now apply joinpath_absolute_name.
  rewrite <- Hpath in Hsave.
  destruct (summarize_document_saved_world env file model max_length w Hext Hsave)
    as (calls & E & _).
  unfold w'. rewrite E, Hpath. cbn [fs trace].
  split; [reflexivity|]. split; [intros Hr; exact Hr|].
  split; [now apply render_absolute|]. split; [|split].
  - apply in_or_app. right. now left.
  - apply in_or_app. right. right. right. apply in_or_app. right. now left.
  - apply lookup_delete_eq.
Qed.

Lemma absolute_filename_escapes_witness :
  fs (snd (summarize_document (sample_env (lit "ok")) absolute_docx None None
             (stored (lit "/srv/data/report.docx") corrupt_document)))
  !! Pathlib.render (filename absolute_docx) = None.
Proof.
  refine (proj2 (proj2 (proj2 (proj2 (proj2
            (absolute_filename_escapes (sample_env (lit "ok")) absolute_docx None None
               (stored (lit "/srv/data/report.docx") corrupt_document) _ _ _)))))).
  - reflexivity.
  - vm_compute. right. left. reflexivity.
  - reflexivity.
Defined.

(** X21.  The detail of a 500 names the stage and carries the message of
    the failure as it was raised: ["Failed to parse document: "] before the
    parser's message, ["Failed to generate summary: "] before the one of
    the generation call, be it a connection error or any other failure. *)
Theorem failure_detail_carries_cause env file model max_length w :
  (forall e, reaches_parser env file -> parsed env file w = Raises e ->
     fst (summarize_document env file model max_length w)
     = Raises (HTTPException 500 (lit "Failed to parse document: " ++ exn_str e))) /\
  (forall text_content msg,
     reaches_generation env file w text_content ->
     reply env model max_length text_content = Httpx.PostRaises msg ->
     fst (summarize_document env file model max_length w)
     = Raises (HTTPException 500 (lit "Failed to generate summary: " ++ msg))) /\
  (forall text_content r,
     reaches_generation env file w text_content ->
     reply env model max_length text_content = Httpx.PostReturns r ->
     Httpx.status_code r <> 200 ->
     exists detail,
       fst (summarize_document env file model max_length w)
       = Raises (HTTPException 500 detail) /\
       contains detail (Httpx.text r) = true).
Proof.
  split; [|split].
  - intros e Hr Hp.
    now rewrite (parse_failure_status env file model max_length w e Hr Hp).
  - intros text_content msg Hr Hpost.
    rewrite (generation_failure_status env file model max_length w text_content
               (RequestError msg) Hr); [reflexivity|].
    intros w0. now apply generate_summary_unreachable.
  - intros text_content r Hr Hpost Hs.
    rewrite (generation_failure_status env file model max_length w text_content _ Hr
               (fun w0 => generate_summary_service_error env text_content _ _ w0 r Hpost Hs)).
    eexists. split; [reflexivity|]. cbn [exn_str].
    rewrite !app_assoc. apply contains_suffix.
Qed.

Lemma failure_detail_carries_cause_witness :
  fst (summarize_document (env_with (Httpx.PostRaises (lit "timed out"))) hello_docx None
         None empty_world)
  = Raises (HTTPException 500 (lit "Failed to generate summary: " ++ lit "timed out")).
Proof.
  apply (proj1 (proj2 (failure_detail_carries_cause
                         (env_with (Httpx.PostRaises (lit "timed out"))) hello_docx None
                         None empty_world)) (lit "Hello") (lit "timed out")).
  - split; [split|split].
    + vm_compute. right. left. reflexivity.
    + reflexivity.
    + vm_compute. reflexivity.
    + reflexivity.
  - reflexivity.
Defined.

(** ** The [/models] and [/health] handlers *)

Lemma model_names_objects (entries : list (list (str * Json.value))) :
  model_names (List.map Json.Object entries) = Returns (List.map entry_name entries).
Proof.
  induction entries as [|members entries IH]; [reflexivity|].
  cbn [List.map model_names Json.get]. rewrite IH. unfold entry_name.
  destruct (Json.member (lit "name") members); reflexivity.
Qed.

(** X22.  How [list_models] fails: a request error of the client becomes
    a 503 whose detail carries its message; a status other than 200
    becomes the 500 ["Failed to fetch models"], the body not being looked
    at; and a request error never leaves the handler as such. *)
Theorem list_models_failures env (tags : get_outcome) :
  (forall e, tags = GetRaises e -> is_RequestError e = true ->
     list_models env tags
     = Raises (HTTPException 503 (lit "Cannot connect to Ollama: " ++ exn_str e))) /\
  (forall status_code json, tags = GetReturns status_code json -> status_code <> 200 ->
     list_models env tags = Raises (HTTPException 500 (lit "Failed to fetch models"))) /\
  (forall e, list_models env tags = Raises e -> is_RequestError e = false).
Proof.
  split; [|split].
  - intros e -> He. unfold list_models, fetch_models. now rewrite He.
  - intros status_code json -> Hs. apply Z.eqb_neq in Hs.
    unfold list_models, fetch_models. now rewrite Hs.
  - intros e. unfold list_models.
    destruct (fetch_models env tags) as [r|e0]; [discriminate|].
    destruct (is_RequestError e0) eqn:He; intros [= <-]; [reflexivity|exact He].
Qed.

Lemma list_models_failures_witness :
  list_models (sample_env []) (GetRaises (RequestError (lit "connection refused")))
  = Raises (HTTPException 503
              (lit "Cannot connect to Ollama: "
               ++ exn_str (RequestError (lit "connection refused")))).
Proof.
  apply (proj1 (list_models_failures (sample_env [])
                  (GetRaises (RequestError (lit "connection refused"))))
           (RequestError (lit "connection refused"))); reflexivity.
Defined.

(** X23.  On a 200 answer that is an object, [list_models] reports one
    name per entry of ["models"], in order, with the empty string for an
    entry without a name, and the configured model as the current one; an
    answer without ["models"] gives the empty list. *)
Theorem list_models_names env (members : list (str * Json.value)) :
  let tags := GetReturns 200 (Returns (Json.Object members)) in
  (forall entries : list (list (str * Json.value)),
     Json.member (lit "models") members = Some (Json.Array (List.map Json.Object entries)) ->
     list_models env tags
     = Returns {| Models.models := List.map entry_name entries;
                  Models.current_model := OLLAMA_MODEL env |}) /\
  (Json.member (lit "models") members = None ->
   list_models env tags
   = Returns {| Models.models := []; Models.current_model := OLLAMA_MODEL env |}).
Proof.
  intros tags. split.
  - intros entries H. unfold list_models, tags, fetch_models, Json.get.
    rewrite H. cbn [Z.eqb Pos.eqb Json.iterate]. now rewrite model_names_objects.
  - intros H. unfold list_models, tags, fetch_models, Json.get.
    rewrite H. reflexivity.
Qed.

Lemma list_models_names_witness :
  list_models (sample_env [])
    (GetReturns 200
       (Returns (Json.Object
                   [(lit "models",
                     Json.Array (List.map Json.Object
                                   [[(lit "name", Json.String (lit "llama2"))];
                                    [(lit "size", Json.Number 7)]]))])))
  = Returns {| Models.models := [Json.String (lit "llama2"); Json.String []];
               Models.current_model := lit "deepseek-r1" |}.
Proof.
  apply (proj1 (list_models_names (sample_env [])
                  [(lit "models",
                    Json.Array (List.map Json.Object
                                  [[(lit "name", Json.String (lit "llama2"))];
                                   [(lit "size", Json.Number 7)]]))])
           [[(lit "name", Json.String (lit "llama2"))]; [(lit "size", Json.Number 7)]]).
  reflexivity.
Defined.

(** X24.  [health] and [list_models] agree on the same answer of the
    service: when [list_models] returns, [health] says ["healthy"]; when
    [health] says ["degraded"], [list_models] raises. *)
Theorem health_agrees_with_list_models env (OLLAMA_BASE_URL : str) (tags : get_outcome) :
  (forall r, list_models env tags = Returns r ->
     health OLLAMA_BASE_URL tags
     = Returns {| Health.status := lit "healthy";
                  Health.ollama_connected := true;
                  Health.ollama_url := OLLAMA_BASE_URL |}) /\
  (health OLLAMA_BASE_URL tags
   = Returns {| Health.status := lit "degraded";
                Health.ollama_connected := false;
                Health.ollama_url := OLLAMA_BASE_URL |} ->
   exists e, list_models env tags = Raises e).
Proof.
  unfold list_models, fetch_models, health. split.
  - intros r. destruct tags as [e|status_code json].
    + destruct (is_RequestError e); discriminate.
    + destruct (status_code =? 200); [reflexivity|discriminate].
  - destruct tags as [e|status_code json].
    + intros _. destruct (is_RequestError e); eauto.
    + destruct (status_code =? 200); [discriminate|]. intros _. eauto.
Qed.

Lemma health_agrees_with_list_models_witness :
  health (lit "http://localhost:11434") (GetReturns 200 (Returns two_models))
  = Returns {| Health.status := lit "healthy";
               Health.ollama_connected := true;
               Health.ollama_url := lit "http://localhost:11434" |}.
Proof.
  apply (proj1 (health_agrees_with_list_models (sample_env [])
                  (lit "http://localhost:11434") (GetReturns 200 (Returns two_models)))
           {| Models.models := [Json.String (lit "llama2"); Json.String []];
              Models.current_model := lit "deepseek-r1" |}).
  reflexivity.
Defined.
